(** * RMS-norm operator of the dynamic-dispatch engine

    A shallow embedding of
    [ext/DynamicDispatch/src/ops/mladfrmsnorm/mladfrmsnorm.cpp]:
    the shape validator, the constructor, the instruction-registry set-up,
    the staging-buffer allocation, the execution pipeline and the
    buffer-requirements query, followed by the properties the
    specification states about them.

    Member functions run in a state-and-failure monad: a C++ exception
    leaves the object and the process as they were when it was thrown, so
    a failing computation still returns the state it reached. *)

From Stdlib Require Import ZArith Lia Init.Byte Ascii String.
From stdpp Require Import base decidable option list strings gmap pretty.

Local Open Scope Z_scope.

(** ** Failures *)

(** What a call can end with instead of a value. [runtime_error] carries
    the message of the [std::runtime_error] thrown in this file;
    [out_of_range] is what [std::vector::at] and [std::map::at] throw;
    [lookup_error] is the instruction registry's failure for a key it
    cannot resolve; [xrt_error] is a failure of the device layer;
    [undefined] marks behaviour the language leaves undefined (a copy
    past the end of a buffer object, a dereferenced [end()] iterator or
    null pointer). *)
Inductive failure : Type :=
| runtime_error (what : string)
| out_of_range
| lookup_error (key : string)
| xrt_error (what : string)
| undefined (what : string).

Definition result (A : Type) : Type := (failure + A)%type.

(** ** Tensors and host memory *)

(** Memory reachable from a pointer, read by byte offset. *)
Definition mem : Type := Z -> byte.

(** [memcpy dst src n]: the first [n] bytes of [dst] become those of
    [src], the rest of [dst] is untouched. *)
Definition memcpy (dst src : mem) (n : Z) : mem :=
  fun i => if (0 <=? i) && (i <? n) then src i else dst i.

(** Modelled from the spec: [struct Tensor] is declared in
    [ops/op_interface.hpp], a header that is not available. The
    specification describes it as a caller-owned view made of a raw data
    pointer, an element dtype and a shape, the shape being a tuple of
    integers. The extents are the elements of the shape vector, values
    of type [size_t]; [extract_MK] and [get_instr_key] convert them to
    [int]. *)
Record Tensor : Type := {
  data : mem;
  shape : list Z;
  dtype : string
}.

(** [std::vector::at]: the element, or [std::out_of_range]. *)
Definition vector_at {A : Type} (v : list A) (i : nat) : result A :=
  match v !! i with
  | Some x => inr x
  | None => inl out_of_range
  end.

(** ** Integer conversions *)

(** The value an integer has after conversion to [int] (32 bits, two's
    complement) and to [size_t] (64 bits): the value modulo 2^32 taken
    in the range from -2^31 to 2^31 - 1, and the value modulo 2^64.
    Arithmetic in [size_t] is arithmetic modulo 2^64. A product of
    [int] values that leaves the range of [int] is undefined in the
    language; the compiled code takes it modulo 2^32, and so does the
    model. *)
Definition to_int (z : Z) : Z := (z + 2 ^ 31) mod 2 ^ 32 - 2 ^ 31.

Definition to_size_t (z : Z) : Z := z mod 2 ^ 64.

(** ** Helpers of [utils/utils.hpp] *)

(** Modelled from the spec: [utils::tuple_to_vector] is declared in
    [utils/utils.hpp], a header that is not available; it turns a shape
    tuple into the vector of its extents. *)
Definition tuple_to_vector (t : Z * Z) : list Z := [t.1; t.2].

(** Modelled from the spec: [utils::running_product_with_skips] is
    declared in [utils/utils.hpp]. The specification describes the
    quantity as the element count of a shape, optionally excluding
    specific axes: the product of the extents whose index is not
    skipped. *)
Fixpoint product_from (i : nat) (nums : list Z) (skip_indexes : list nat) : Z :=
  match nums with
  | [] => 1
  | n :: rest =>
      (if bool_decide (i ∈ skip_indexes) then 1 else n)
      * product_from (S i) rest skip_indexes
  end.

Definition running_product_with_skips
    (nums : list Z) (skip_indexes : list nat) : Z :=
  product_from 0 nums skip_indexes.

(** Modelled from the spec: [utils::max_element_count_with_skips] is
    declared in [utils/utils.hpp]. The specification gives it as the
    maximum, over all supported shapes, of the element count with the
    given axes excluded. A table without entries has no maximum; the
    model returns 0 for it. *)
Fixpoint max_element_count_with_skips
    (supported_shapes : list (list Z)) (skip_indexes : list nat) : Z :=
  match supported_shapes with
  | [] => 0
  | [s] => running_product_with_skips s skip_indexes
  | s :: rest =>
      Z.max (running_product_with_skips s skip_indexes)
            (max_element_count_with_skips rest skip_indexes)
  end.

(** ** Device layer *)

Inductive bo_role : Type := BoA | BoB | BoC.

(** What the operator asks of the host memory system and of the device,
    in the order it asks. *)
Inductive event : Type :=
| ev_device_open (xclbin : string)
| ev_bo_alloc (size : Z)
| ev_stage_write (r : bo_role) (nbytes : Z)
| ev_sync_to_device (r : bo_role)
| ev_sync_from_device (r : bo_role)
| ev_instr_load (key : string)
| ev_kernel_run (opcode : Z) (instr_words : Z) (a_addr b_addr c_addr : Z)
| ev_fetch_read (r : bo_role) (nbytes : Z).

(** [xrt::bo]: a device-visible region of [bo_size] bytes at device
    address [address]; the buffers are host-only, so host and device see
    the same bytes and a sync is an ordering point. *)
Record xrt_bo : Type := {
  bo_size : Z;
  address : Z;
  bo_bytes : mem
}.

(** Modelled from the spec: [dynamic_dispatch::xrt_context] is declared
    in [xrt_context/xrt_context.hpp]. A device context is identified by
    the path of the hardware image it was opened for. *)
Record xrt_context : Type := {
  xclbin : string
}.

(** A loaded instruction stream. *)
Record instr_blob : Type := {
  blob_bytes : list byte
}.

(** Modelled from the spec: [instruction_registry] is declared in
    [utils/instruction_registry.hpp]. Registration declares the keys
    that may be requested, none is loaded yet; the first request for a
    registered key loads the backing artifact and caches it; a request
    for a key that was never registered, or whose artifact is missing,
    fails with a lookup error. *)
Record instruction_registry : Type := {
  hw_ctx : option xrt_context;
  instr_keys : list (string * bool);
  layer_param_keys : list (string * bool);
  loaded : gmap string instr_blob
}.

Definition instruction_registry_default : instruction_registry :=
  {| hw_ctx := None; instr_keys := []; layer_param_keys := []; loaded := ∅ |}.

(** The collaborators outside the operator: how long each operation
    takes, the artifact store, the kernel running on the array, the
    bytes a fresh buffer object holds, the device addresses handed out,
    and the constants of headers that are not available
    ([get_dod_base_dir()], the xclbin path macro, [DDR_AIE_ADDR_OFFSET]). *)
Record platform : Type := {
  elapsed : event -> Z;
  get_txn_str : string -> option (list byte);
  aie_kernel : instr_blob -> mem -> mem -> mem -> mem;
  fresh_bytes : mem;
  bo_address_of : nat -> Z;
  dod_base_dir : string;
  XCLBIN_PATH : string;
  DDR_AIE_ADDR_OFFSET : Z
}.

(** ** Metrics sink *)

(** Lines handed to the logging macros. The timing line keeps the
    integer columns; the [kernel_x_shape_] columns (never assigned in
    this file) and the floating-point average are not recorded. *)
Inductive log_line : Type :=
| log_header
| log_ctor (id : Z) (xclbin_name : string) (operand_dtype : string)
| log_timing (id exec_time num_run run_time
              a_copy a_sync b_copy b_sync c_copy c_sync : Z).

(** ** The operator object and the process around it *)

(** The data members of [rms_norm]. The class is declared in
    [ops/mladfrmsnorm/mladfrmsnorm.hpp]; the members are those the
    member functions of this file read and write. The three static
    members, which the file defines out of class ([logger_flag_],
    [rms_norm_count], [instr_reg_flag_]), are fields of [process]
    below; [instr_reg_] has no such definition and is a member of the
    object. *)

Record rms_norm : Type := {
  txnbin_operand_header : gmap string string;
  default_shapes_ : gmap string (list (Z * Z));
  rms_norm_id_ : Z;
  debug_ : bool;
  operand_dtype_ : string;
  operand_dtype_size_ : Z;
  txn_fname_prefix_ : string;
  instr_reg_ : instruction_registry;
  xrt_ctx_ : option xrt_context;
  a_bo_ : option xrt_bo;
  b_bo_ : option xrt_bo;
  c_bo_ : option xrt_bo;
  operand_size_in_bytes_ : Z;
  wts_size_in_bytes_ : Z;
  a_copy_time_ : Z;
  a_sync_time_ : Z;
  b_copy_time_ : Z;
  b_sync_time_ : Z;
  c_copy_time_ : Z;
  c_sync_time_ : Z;
  run_aie_time_ : Z;
  num_run_aie_ : Z
}.

(** The static members of the class ([rms_norm_count], [logger_flag_],
    [instr_reg_flag_]) and the process-wide collaborators: the device
    contexts opened so far, the metrics sink fed by [RYZENAI_LOG_INFO],
    the trace log fed by [RYZENAI_LOG_TRACE], the trace of device
    operations, the clock and the number of buffer objects created. *)
Record process : Type := {
  rms_norm_count : Z;
  logger_flag_ : bool;
  instr_reg_flag_ : bool;
  xrt_contexts : gmap string xrt_context;
  log_sink : list log_line;
  trace_sink : list log_line;
  device_trace : list event;
  time_ns : Z;
  bo_allocs : nat
}.

Record state : Type := {
  this : rms_norm;
  proc : process
}.

Definition process_start : process :=
  {| rms_norm_count := 0; logger_flag_ := false; instr_reg_flag_ := false;
     xrt_contexts := ∅; log_sink := []; trace_sink := []; device_trace := [];
     time_ns := 0; bo_allocs := 0 |}.

(** ** Field assignments *)

(** [set_f v o] is the object [o] after the assignment [f = v]. *)

Definition set_txnbin_operand_header v (o : rms_norm) : rms_norm :=
  {| txnbin_operand_header := v; default_shapes_ := default_shapes_ o;
     rms_norm_id_ := rms_norm_id_ o; debug_ := debug_ o; operand_dtype_ :=
     operand_dtype_ o; operand_dtype_size_ := operand_dtype_size_ o;
     txn_fname_prefix_ := txn_fname_prefix_ o; instr_reg_ := instr_reg_ o;
     xrt_ctx_ := xrt_ctx_ o; a_bo_ := a_bo_ o; b_bo_ := b_bo_ o; c_bo_ :=
     c_bo_ o; operand_size_in_bytes_ := operand_size_in_bytes_ o;
     wts_size_in_bytes_ := wts_size_in_bytes_ o; a_copy_time_ := a_copy_time_
     o; a_sync_time_ := a_sync_time_ o; b_copy_time_ := b_copy_time_ o;
     b_sync_time_ := b_sync_time_ o; c_copy_time_ := c_copy_time_ o;
     c_sync_time_ := c_sync_time_ o; run_aie_time_ := run_aie_time_ o;
     num_run_aie_ := num_run_aie_ o |}.

Definition set_default_shapes_ v (o : rms_norm) : rms_norm :=
  {| txnbin_operand_header := txnbin_operand_header o; default_shapes_ := v;
     rms_norm_id_ := rms_norm_id_ o; debug_ := debug_ o; operand_dtype_ :=
     operand_dtype_ o; operand_dtype_size_ := operand_dtype_size_ o;
     txn_fname_prefix_ := txn_fname_prefix_ o; instr_reg_ := instr_reg_ o;
     xrt_ctx_ := xrt_ctx_ o; a_bo_ := a_bo_ o; b_bo_ := b_bo_ o; c_bo_ :=
     c_bo_ o; operand_size_in_bytes_ := operand_size_in_bytes_ o;
     wts_size_in_bytes_ := wts_size_in_bytes_ o; a_copy_time_ := a_copy_time_
     o; a_sync_time_ := a_sync_time_ o; b_copy_time_ := b_copy_time_ o;
     b_sync_time_ := b_sync_time_ o; c_copy_time_ := c_copy_time_ o;
     c_sync_time_ := c_sync_time_ o; run_aie_time_ := run_aie_time_ o;
     num_run_aie_ := num_run_aie_ o |}.

Definition set_rms_norm_id_ v (o : rms_norm) : rms_norm :=
  {| txnbin_operand_header := txnbin_operand_header o; default_shapes_ :=
     default_shapes_ o; rms_norm_id_ := v; debug_ := debug_ o; operand_dtype_
     := operand_dtype_ o; operand_dtype_size_ := operand_dtype_size_ o;
     txn_fname_prefix_ := txn_fname_prefix_ o; instr_reg_ := instr_reg_ o;
     xrt_ctx_ := xrt_ctx_ o; a_bo_ := a_bo_ o; b_bo_ := b_bo_ o; c_bo_ :=
     c_bo_ o; operand_size_in_bytes_ := operand_size_in_bytes_ o;
     wts_size_in_bytes_ := wts_size_in_bytes_ o; a_copy_time_ := a_copy_time_
     o; a_sync_time_ := a_sync_time_ o; b_copy_time_ := b_copy_time_ o;
     b_sync_time_ := b_sync_time_ o; c_copy_time_ := c_copy_time_ o;
     c_sync_time_ := c_sync_time_ o; run_aie_time_ := run_aie_time_ o;
     num_run_aie_ := num_run_aie_ o |}.

Definition set_debug_ v (o : rms_norm) : rms_norm :=
  {| txnbin_operand_header := txnbin_operand_header o; default_shapes_ :=
     default_shapes_ o; rms_norm_id_ := rms_norm_id_ o; debug_ := v;
     operand_dtype_ := operand_dtype_ o; operand_dtype_size_ :=
     operand_dtype_size_ o; txn_fname_prefix_ := txn_fname_prefix_ o;
     instr_reg_ := instr_reg_ o; xrt_ctx_ := xrt_ctx_ o; a_bo_ := a_bo_ o;
     b_bo_ := b_bo_ o; c_bo_ := c_bo_ o; operand_size_in_bytes_ :=
     operand_size_in_bytes_ o; wts_size_in_bytes_ := wts_size_in_bytes_ o;
     a_copy_time_ := a_copy_time_ o; a_sync_time_ := a_sync_time_ o;
     b_copy_time_ := b_copy_time_ o; b_sync_time_ := b_sync_time_ o;
     c_copy_time_ := c_copy_time_ o; c_sync_time_ := c_sync_time_ o;
     run_aie_time_ := run_aie_time_ o; num_run_aie_ := num_run_aie_ o |}.

Definition set_operand_dtype_ v (o : rms_norm) : rms_norm :=
  {| txnbin_operand_header := txnbin_operand_header o; default_shapes_ :=
     default_shapes_ o; rms_norm_id_ := rms_norm_id_ o; debug_ := debug_ o;
     operand_dtype_ := v; operand_dtype_size_ := operand_dtype_size_ o;
     txn_fname_prefix_ := txn_fname_prefix_ o; instr_reg_ := instr_reg_ o;
     xrt_ctx_ := xrt_ctx_ o; a_bo_ := a_bo_ o; b_bo_ := b_bo_ o; c_bo_ :=
     c_bo_ o; operand_size_in_bytes_ := operand_size_in_bytes_ o;
     wts_size_in_bytes_ := wts_size_in_bytes_ o; a_copy_time_ := a_copy_time_
     o; a_sync_time_ := a_sync_time_ o; b_copy_time_ := b_copy_time_ o;
     b_sync_time_ := b_sync_time_ o; c_copy_time_ := c_copy_time_ o;
     c_sync_time_ := c_sync_time_ o; run_aie_time_ := run_aie_time_ o;
     num_run_aie_ := num_run_aie_ o |}.

Definition set_operand_dtype_size_ v (o : rms_norm) : rms_norm :=
  {| txnbin_operand_header := txnbin_operand_header o; default_shapes_ :=
     default_shapes_ o; rms_norm_id_ := rms_norm_id_ o; debug_ := debug_ o;
     operand_dtype_ := operand_dtype_ o; operand_dtype_size_ := v;
     txn_fname_prefix_ := txn_fname_prefix_ o; instr_reg_ := instr_reg_ o;
     xrt_ctx_ := xrt_ctx_ o; a_bo_ := a_bo_ o; b_bo_ := b_bo_ o; c_bo_ :=
     c_bo_ o; operand_size_in_bytes_ := operand_size_in_bytes_ o;
     wts_size_in_bytes_ := wts_size_in_bytes_ o; a_copy_time_ := a_copy_time_
     o; a_sync_time_ := a_sync_time_ o; b_copy_time_ := b_copy_time_ o;
     b_sync_time_ := b_sync_time_ o; c_copy_time_ := c_copy_time_ o;
     c_sync_time_ := c_sync_time_ o; run_aie_time_ := run_aie_time_ o;
     num_run_aie_ := num_run_aie_ o |}.

Definition set_txn_fname_prefix_ v (o : rms_norm) : rms_norm :=
  {| txnbin_operand_header := txnbin_operand_header o; default_shapes_ :=
     default_shapes_ o; rms_norm_id_ := rms_norm_id_ o; debug_ := debug_ o;
     operand_dtype_ := operand_dtype_ o; operand_dtype_size_ :=
     operand_dtype_size_ o; txn_fname_prefix_ := v; instr_reg_ := instr_reg_
     o; xrt_ctx_ := xrt_ctx_ o; a_bo_ := a_bo_ o; b_bo_ := b_bo_ o; c_bo_ :=
     c_bo_ o; operand_size_in_bytes_ := operand_size_in_bytes_ o;
     wts_size_in_bytes_ := wts_size_in_bytes_ o; a_copy_time_ := a_copy_time_
     o; a_sync_time_ := a_sync_time_ o; b_copy_time_ := b_copy_time_ o;
     b_sync_time_ := b_sync_time_ o; c_copy_time_ := c_copy_time_ o;
     c_sync_time_ := c_sync_time_ o; run_aie_time_ := run_aie_time_ o;
     num_run_aie_ := num_run_aie_ o |}.

Definition set_instr_reg_ v (o : rms_norm) : rms_norm :=
  {| txnbin_operand_header := txnbin_operand_header o; default_shapes_ :=
     default_shapes_ o; rms_norm_id_ := rms_norm_id_ o; debug_ := debug_ o;
     operand_dtype_ := operand_dtype_ o; operand_dtype_size_ :=
     operand_dtype_size_ o; txn_fname_prefix_ := txn_fname_prefix_ o;
     instr_reg_ := v; xrt_ctx_ := xrt_ctx_ o; a_bo_ := a_bo_ o; b_bo_ := b_bo_
     o; c_bo_ := c_bo_ o; operand_size_in_bytes_ := operand_size_in_bytes_ o;
     wts_size_in_bytes_ := wts_size_in_bytes_ o; a_copy_time_ := a_copy_time_
     o; a_sync_time_ := a_sync_time_ o; b_copy_time_ := b_copy_time_ o;
     b_sync_time_ := b_sync_time_ o; c_copy_time_ := c_copy_time_ o;
     c_sync_time_ := c_sync_time_ o; run_aie_time_ := run_aie_time_ o;
     num_run_aie_ := num_run_aie_ o |}.

Definition set_xrt_ctx_ v (o : rms_norm) : rms_norm :=
  {| txnbin_operand_header := txnbin_operand_header o; default_shapes_ :=
     default_shapes_ o; rms_norm_id_ := rms_norm_id_ o; debug_ := debug_ o;
     operand_dtype_ := operand_dtype_ o; operand_dtype_size_ :=
     operand_dtype_size_ o; txn_fname_prefix_ := txn_fname_prefix_ o;
     instr_reg_ := instr_reg_ o; xrt_ctx_ := v; a_bo_ := a_bo_ o; b_bo_ :=
     b_bo_ o; c_bo_ := c_bo_ o; operand_size_in_bytes_ :=
     operand_size_in_bytes_ o; wts_size_in_bytes_ := wts_size_in_bytes_ o;
     a_copy_time_ := a_copy_time_ o; a_sync_time_ := a_sync_time_ o;
     b_copy_time_ := b_copy_time_ o; b_sync_time_ := b_sync_time_ o;
     c_copy_time_ := c_copy_time_ o; c_sync_time_ := c_sync_time_ o;
     run_aie_time_ := run_aie_time_ o; num_run_aie_ := num_run_aie_ o |}.

Definition set_a_bo_ v (o : rms_norm) : rms_norm :=
  {| txnbin_operand_header := txnbin_operand_header o; default_shapes_ :=
     default_shapes_ o; rms_norm_id_ := rms_norm_id_ o; debug_ := debug_ o;
     operand_dtype_ := operand_dtype_ o; operand_dtype_size_ :=
     operand_dtype_size_ o; txn_fname_prefix_ := txn_fname_prefix_ o;
     instr_reg_ := instr_reg_ o; xrt_ctx_ := xrt_ctx_ o; a_bo_ := v; b_bo_ :=
     b_bo_ o; c_bo_ := c_bo_ o; operand_size_in_bytes_ :=
     operand_size_in_bytes_ o; wts_size_in_bytes_ := wts_size_in_bytes_ o;
     a_copy_time_ := a_copy_time_ o; a_sync_time_ := a_sync_time_ o;
     b_copy_time_ := b_copy_time_ o; b_sync_time_ := b_sync_time_ o;
     c_copy_time_ := c_copy_time_ o; c_sync_time_ := c_sync_time_ o;
     run_aie_time_ := run_aie_time_ o; num_run_aie_ := num_run_aie_ o |}.

Definition set_b_bo_ v (o : rms_norm) : rms_norm :=
  {| txnbin_operand_header := txnbin_operand_header o; default_shapes_ :=
     default_shapes_ o; rms_norm_id_ := rms_norm_id_ o; debug_ := debug_ o;
     operand_dtype_ := operand_dtype_ o; operand_dtype_size_ :=
     operand_dtype_size_ o; txn_fname_prefix_ := txn_fname_prefix_ o;
     instr_reg_ := instr_reg_ o; xrt_ctx_ := xrt_ctx_ o; a_bo_ := a_bo_ o;
     b_bo_ := v; c_bo_ := c_bo_ o; operand_size_in_bytes_ :=
     operand_size_in_bytes_ o; wts_size_in_bytes_ := wts_size_in_bytes_ o;
     a_copy_time_ := a_copy_time_ o; a_sync_time_ := a_sync_time_ o;
     b_copy_time_ := b_copy_time_ o; b_sync_time_ := b_sync_time_ o;
     c_copy_time_ := c_copy_time_ o; c_sync_time_ := c_sync_time_ o;
     run_aie_time_ := run_aie_time_ o; num_run_aie_ := num_run_aie_ o |}.

Definition set_c_bo_ v (o : rms_norm) : rms_norm :=
  {| txnbin_operand_header := txnbin_operand_header o; default_shapes_ :=
     default_shapes_ o; rms_norm_id_ := rms_norm_id_ o; debug_ := debug_ o;
     operand_dtype_ := operand_dtype_ o; operand_dtype_size_ :=
     operand_dtype_size_ o; txn_fname_prefix_ := txn_fname_prefix_ o;
     instr_reg_ := instr_reg_ o; xrt_ctx_ := xrt_ctx_ o; a_bo_ := a_bo_ o;
     b_bo_ := b_bo_ o; c_bo_ := v; operand_size_in_bytes_ :=
     operand_size_in_bytes_ o; wts_size_in_bytes_ := wts_size_in_bytes_ o;
     a_copy_time_ := a_copy_time_ o; a_sync_time_ := a_sync_time_ o;
     b_copy_time_ := b_copy_time_ o; b_sync_time_ := b_sync_time_ o;
     c_copy_time_ := c_copy_time_ o; c_sync_time_ := c_sync_time_ o;
     run_aie_time_ := run_aie_time_ o; num_run_aie_ := num_run_aie_ o |}.

Definition set_operand_size_in_bytes_ v (o : rms_norm) : rms_norm :=
  {| txnbin_operand_header := txnbin_operand_header o; default_shapes_ :=
     default_shapes_ o; rms_norm_id_ := rms_norm_id_ o; debug_ := debug_ o;
     operand_dtype_ := operand_dtype_ o; operand_dtype_size_ :=
     operand_dtype_size_ o; txn_fname_prefix_ := txn_fname_prefix_ o;
     instr_reg_ := instr_reg_ o; xrt_ctx_ := xrt_ctx_ o; a_bo_ := a_bo_ o;
     b_bo_ := b_bo_ o; c_bo_ := c_bo_ o; operand_size_in_bytes_ := v;
     wts_size_in_bytes_ := wts_size_in_bytes_ o; a_copy_time_ := a_copy_time_
     o; a_sync_time_ := a_sync_time_ o; b_copy_time_ := b_copy_time_ o;
     b_sync_time_ := b_sync_time_ o; c_copy_time_ := c_copy_time_ o;
     c_sync_time_ := c_sync_time_ o; run_aie_time_ := run_aie_time_ o;
     num_run_aie_ := num_run_aie_ o |}.

Definition set_wts_size_in_bytes_ v (o : rms_norm) : rms_norm :=
  {| txnbin_operand_header := txnbin_operand_header o; default_shapes_ :=
     default_shapes_ o; rms_norm_id_ := rms_norm_id_ o; debug_ := debug_ o;
     operand_dtype_ := operand_dtype_ o; operand_dtype_size_ :=
     operand_dtype_size_ o; txn_fname_prefix_ := txn_fname_prefix_ o;
     instr_reg_ := instr_reg_ o; xrt_ctx_ := xrt_ctx_ o; a_bo_ := a_bo_ o;
     b_bo_ := b_bo_ o; c_bo_ := c_bo_ o; operand_size_in_bytes_ :=
     operand_size_in_bytes_ o; wts_size_in_bytes_ := v; a_copy_time_ :=
     a_copy_time_ o; a_sync_time_ := a_sync_time_ o; b_copy_time_ :=
     b_copy_time_ o; b_sync_time_ := b_sync_time_ o; c_copy_time_ :=
     c_copy_time_ o; c_sync_time_ := c_sync_time_ o; run_aie_time_ :=
     run_aie_time_ o; num_run_aie_ := num_run_aie_ o |}.

Definition set_a_copy_time_ v (o : rms_norm) : rms_norm :=
  {| txnbin_operand_header := txnbin_operand_header o; default_shapes_ :=
     default_shapes_ o; rms_norm_id_ := rms_norm_id_ o; debug_ := debug_ o;
     operand_dtype_ := operand_dtype_ o; operand_dtype_size_ :=
     operand_dtype_size_ o; txn_fname_prefix_ := txn_fname_prefix_ o;
     instr_reg_ := instr_reg_ o; xrt_ctx_ := xrt_ctx_ o; a_bo_ := a_bo_ o;
     b_bo_ := b_bo_ o; c_bo_ := c_bo_ o; operand_size_in_bytes_ :=
     operand_size_in_bytes_ o; wts_size_in_bytes_ := wts_size_in_bytes_ o;
     a_copy_time_ := v; a_sync_time_ := a_sync_time_ o; b_copy_time_ :=
     b_copy_time_ o; b_sync_time_ := b_sync_time_ o; c_copy_time_ :=
     c_copy_time_ o; c_sync_time_ := c_sync_time_ o; run_aie_time_ :=
     run_aie_time_ o; num_run_aie_ := num_run_aie_ o |}.

Definition set_a_sync_time_ v (o : rms_norm) : rms_norm :=
  {| txnbin_operand_header := txnbin_operand_header o; default_shapes_ :=
     default_shapes_ o; rms_norm_id_ := rms_norm_id_ o; debug_ := debug_ o;
     operand_dtype_ := operand_dtype_ o; operand_dtype_size_ :=
     operand_dtype_size_ o; txn_fname_prefix_ := txn_fname_prefix_ o;
     instr_reg_ := instr_reg_ o; xrt_ctx_ := xrt_ctx_ o; a_bo_ := a_bo_ o;
     b_bo_ := b_bo_ o; c_bo_ := c_bo_ o; operand_size_in_bytes_ :=
     operand_size_in_bytes_ o; wts_size_in_bytes_ := wts_size_in_bytes_ o;
     a_copy_time_ := a_copy_time_ o; a_sync_time_ := v; b_copy_time_ :=
     b_copy_time_ o; b_sync_time_ := b_sync_time_ o; c_copy_time_ :=
     c_copy_time_ o; c_sync_time_ := c_sync_time_ o; run_aie_time_ :=
     run_aie_time_ o; num_run_aie_ := num_run_aie_ o |}.

Definition set_b_copy_time_ v (o : rms_norm) : rms_norm :=
  {| txnbin_operand_header := txnbin_operand_header o; default_shapes_ :=
     default_shapes_ o; rms_norm_id_ := rms_norm_id_ o; debug_ := debug_ o;
     operand_dtype_ := operand_dtype_ o; operand_dtype_size_ :=
     operand_dtype_size_ o; txn_fname_prefix_ := txn_fname_prefix_ o;
     instr_reg_ := instr_reg_ o; xrt_ctx_ := xrt_ctx_ o; a_bo_ := a_bo_ o;
     b_bo_ := b_bo_ o; c_bo_ := c_bo_ o; operand_size_in_bytes_ :=
     operand_size_in_bytes_ o; wts_size_in_bytes_ := wts_size_in_bytes_ o;
     a_copy_time_ := a_copy_time_ o; a_sync_time_ := a_sync_time_ o;
     b_copy_time_ := v; b_sync_time_ := b_sync_time_ o; c_copy_time_ :=
     c_copy_time_ o; c_sync_time_ := c_sync_time_ o; run_aie_time_ :=
     run_aie_time_ o; num_run_aie_ := num_run_aie_ o |}.

Definition set_b_sync_time_ v (o : rms_norm) : rms_norm :=
  {| txnbin_operand_header := txnbin_operand_header o; default_shapes_ :=
     default_shapes_ o; rms_norm_id_ := rms_norm_id_ o; debug_ := debug_ o;
     operand_dtype_ := operand_dtype_ o; operand_dtype_size_ :=
     operand_dtype_size_ o; txn_fname_prefix_ := txn_fname_prefix_ o;
     instr_reg_ := instr_reg_ o; xrt_ctx_ := xrt_ctx_ o; a_bo_ := a_bo_ o;
     b_bo_ := b_bo_ o; c_bo_ := c_bo_ o; operand_size_in_bytes_ :=
     operand_size_in_bytes_ o; wts_size_in_bytes_ := wts_size_in_bytes_ o;
     a_copy_time_ := a_copy_time_ o; a_sync_time_ := a_sync_time_ o;
     b_copy_time_ := b_copy_time_ o; b_sync_time_ := v; c_copy_time_ :=
     c_copy_time_ o; c_sync_time_ := c_sync_time_ o; run_aie_time_ :=
     run_aie_time_ o; num_run_aie_ := num_run_aie_ o |}.

Definition set_c_copy_time_ v (o : rms_norm) : rms_norm :=
  {| txnbin_operand_header := txnbin_operand_header o; default_shapes_ :=
     default_shapes_ o; rms_norm_id_ := rms_norm_id_ o; debug_ := debug_ o;
     operand_dtype_ := operand_dtype_ o; operand_dtype_size_ :=
     operand_dtype_size_ o; txn_fname_prefix_ := txn_fname_prefix_ o;
     instr_reg_ := instr_reg_ o; xrt_ctx_ := xrt_ctx_ o; a_bo_ := a_bo_ o;
     b_bo_ := b_bo_ o; c_bo_ := c_bo_ o; operand_size_in_bytes_ :=
     operand_size_in_bytes_ o; wts_size_in_bytes_ := wts_size_in_bytes_ o;
     a_copy_time_ := a_copy_time_ o; a_sync_time_ := a_sync_time_ o;
     b_copy_time_ := b_copy_time_ o; b_sync_time_ := b_sync_time_ o;
     c_copy_time_ := v; c_sync_time_ := c_sync_time_ o; run_aie_time_ :=
     run_aie_time_ o; num_run_aie_ := num_run_aie_ o |}.

Definition set_c_sync_time_ v (o : rms_norm) : rms_norm :=
  {| txnbin_operand_header := txnbin_operand_header o; default_shapes_ :=
     default_shapes_ o; rms_norm_id_ := rms_norm_id_ o; debug_ := debug_ o;
     operand_dtype_ := operand_dtype_ o; operand_dtype_size_ :=
     operand_dtype_size_ o; txn_fname_prefix_ := txn_fname_prefix_ o;
     instr_reg_ := instr_reg_ o; xrt_ctx_ := xrt_ctx_ o; a_bo_ := a_bo_ o;
     b_bo_ := b_bo_ o; c_bo_ := c_bo_ o; operand_size_in_bytes_ :=
     operand_size_in_bytes_ o; wts_size_in_bytes_ := wts_size_in_bytes_ o;
     a_copy_time_ := a_copy_time_ o; a_sync_time_ := a_sync_time_ o;
     b_copy_time_ := b_copy_time_ o; b_sync_time_ := b_sync_time_ o;
     c_copy_time_ := c_copy_time_ o; c_sync_time_ := v; run_aie_time_ :=
     run_aie_time_ o; num_run_aie_ := num_run_aie_ o |}.

Definition set_run_aie_time_ v (o : rms_norm) : rms_norm :=
  {| txnbin_operand_header := txnbin_operand_header o; default_shapes_ :=
     default_shapes_ o; rms_norm_id_ := rms_norm_id_ o; debug_ := debug_ o;
     operand_dtype_ := operand_dtype_ o; operand_dtype_size_ :=
     operand_dtype_size_ o; txn_fname_prefix_ := txn_fname_prefix_ o;
     instr_reg_ := instr_reg_ o; xrt_ctx_ := xrt_ctx_ o; a_bo_ := a_bo_ o;
     b_bo_ := b_bo_ o; c_bo_ := c_bo_ o; operand_size_in_bytes_ :=
     operand_size_in_bytes_ o; wts_size_in_bytes_ := wts_size_in_bytes_ o;
     a_copy_time_ := a_copy_time_ o; a_sync_time_ := a_sync_time_ o;
     b_copy_time_ := b_copy_time_ o; b_sync_time_ := b_sync_time_ o;
     c_copy_time_ := c_copy_time_ o; c_sync_time_ := c_sync_time_ o;
     run_aie_time_ := v; num_run_aie_ := num_run_aie_ o |}.

Definition set_num_run_aie_ v (o : rms_norm) : rms_norm :=
  {| txnbin_operand_header := txnbin_operand_header o; default_shapes_ :=
     default_shapes_ o; rms_norm_id_ := rms_norm_id_ o; debug_ := debug_ o;
     operand_dtype_ := operand_dtype_ o; operand_dtype_size_ :=
     operand_dtype_size_ o; txn_fname_prefix_ := txn_fname_prefix_ o;
     instr_reg_ := instr_reg_ o; xrt_ctx_ := xrt_ctx_ o; a_bo_ := a_bo_ o;
     b_bo_ := b_bo_ o; c_bo_ := c_bo_ o; operand_size_in_bytes_ :=
     operand_size_in_bytes_ o; wts_size_in_bytes_ := wts_size_in_bytes_ o;
     a_copy_time_ := a_copy_time_ o; a_sync_time_ := a_sync_time_ o;
     b_copy_time_ := b_copy_time_ o; b_sync_time_ := b_sync_time_ o;
     c_copy_time_ := c_copy_time_ o; c_sync_time_ := c_sync_time_ o;
     run_aie_time_ := run_aie_time_ o; num_run_aie_ := v |}.

Definition set_rms_norm_count v (p : process) : process :=
  {| rms_norm_count := v; logger_flag_ := logger_flag_ p;
     instr_reg_flag_ := instr_reg_flag_ p; xrt_contexts := xrt_contexts p;
     log_sink := log_sink p; trace_sink := trace_sink p;
     device_trace := device_trace p; time_ns := time_ns p;
     bo_allocs := bo_allocs p |}.

Definition set_logger_flag_ v (p : process) : process :=
  {| rms_norm_count := rms_norm_count p; logger_flag_ := v;
     instr_reg_flag_ := instr_reg_flag_ p; xrt_contexts := xrt_contexts p;
     log_sink := log_sink p; trace_sink := trace_sink p;
     device_trace := device_trace p; time_ns := time_ns p;
     bo_allocs := bo_allocs p |}.

Definition set_instr_reg_flag_ v (p : process) : process :=
  {| rms_norm_count := rms_norm_count p; logger_flag_ := logger_flag_ p;
     instr_reg_flag_ := v; xrt_contexts := xrt_contexts p;
     log_sink := log_sink p; trace_sink := trace_sink p;
     device_trace := device_trace p; time_ns := time_ns p;
     bo_allocs := bo_allocs p |}.

Definition set_xrt_contexts v (p : process) : process :=
  {| rms_norm_count := rms_norm_count p; logger_flag_ := logger_flag_ p;
     instr_reg_flag_ := instr_reg_flag_ p; xrt_contexts := v;
     log_sink := log_sink p; trace_sink := trace_sink p;
     device_trace := device_trace p; time_ns := time_ns p;
     bo_allocs := bo_allocs p |}.

Definition set_log_sink v (p : process) : process :=
  {| rms_norm_count := rms_norm_count p; logger_flag_ := logger_flag_ p;
     instr_reg_flag_ := instr_reg_flag_ p; xrt_contexts := xrt_contexts p;
     log_sink := v; trace_sink := trace_sink p; device_trace := device_trace p;
     time_ns := time_ns p; bo_allocs := bo_allocs p |}.

Definition set_trace_sink v (p : process) : process :=
  {| rms_norm_count := rms_norm_count p; logger_flag_ := logger_flag_ p;
     instr_reg_flag_ := instr_reg_flag_ p; xrt_contexts := xrt_contexts p;
     log_sink := log_sink p; trace_sink := v; device_trace := device_trace p;
     time_ns := time_ns p; bo_allocs := bo_allocs p |}.

Definition set_device_trace v (p : process) : process :=
  {| rms_norm_count := rms_norm_count p; logger_flag_ := logger_flag_ p;
     instr_reg_flag_ := instr_reg_flag_ p; xrt_contexts := xrt_contexts p;
     log_sink := log_sink p; trace_sink := trace_sink p; device_trace := v;
     time_ns := time_ns p; bo_allocs := bo_allocs p |}.

Definition set_time_ns v (p : process) : process :=
  {| rms_norm_count := rms_norm_count p; logger_flag_ := logger_flag_ p;
     instr_reg_flag_ := instr_reg_flag_ p; xrt_contexts := xrt_contexts p;
     log_sink := log_sink p; trace_sink := trace_sink p;
     device_trace := device_trace p; time_ns := v; bo_allocs := bo_allocs p |}.

Definition set_bo_allocs v (p : process) : process :=
  {| rms_norm_count := rms_norm_count p; logger_flag_ := logger_flag_ p;
     instr_reg_flag_ := instr_reg_flag_ p; xrt_contexts := xrt_contexts p;
     log_sink := log_sink p; trace_sink := trace_sink p;
     device_trace := device_trace p; time_ns := time_ns p; bo_allocs := v |}.

Definition set_hw_ctx v (r : instruction_registry) : instruction_registry :=
  {| hw_ctx := v; instr_keys := instr_keys r; layer_param_keys :=
     layer_param_keys r; loaded := loaded r |}.

Definition set_instr_keys v (r : instruction_registry) : instruction_registry :=
  {| hw_ctx := hw_ctx r; instr_keys := v; layer_param_keys := layer_param_keys
     r; loaded := loaded r |}.

Definition set_layer_param_keys v (r : instruction_registry) : instruction_registry :=
  {| hw_ctx := hw_ctx r; instr_keys := instr_keys r; layer_param_keys := v;
     loaded := loaded r |}.

Definition set_loaded v (r : instruction_registry) : instruction_registry :=
  {| hw_ctx := hw_ctx r; instr_keys := instr_keys r; layer_param_keys :=
     layer_param_keys r; loaded := v |}.

Definition set_bo_size v (b : xrt_bo) : xrt_bo :=
  {| bo_size := v; address := address b; bo_bytes := bo_bytes b |}.

Definition set_address v (b : xrt_bo) : xrt_bo :=
  {| bo_size := bo_size b; address := v; bo_bytes := bo_bytes b |}.

Definition set_bo_bytes v (b : xrt_bo) : xrt_bo :=
  {| bo_size := bo_size b; address := address b; bo_bytes := v |}.

Definition set_data v (t : Tensor) : Tensor :=
  {| data := v; shape := shape t; dtype := dtype t |}.

Definition set_shape v (t : Tensor) : Tensor :=
  {| data := data t; shape := v; dtype := dtype t |}.

Definition set_dtype v (t : Tensor) : Tensor :=
  {| data := data t; shape := shape t; dtype := v |}.

(** ** The state-and-failure monad *)

Definition comp (A : Type) : Type := state -> result A * state.

#[global] Instance comp_ret : MRet comp := fun A x s => (inr x, s).

#[global] Instance comp_bind : MBind comp := fun A B k c s =>
  match c s with
  | (inr x, s') => k x s'
  | (inl e, s') => (inl e, s')
  end.

Definition throw {A : Type} (e : failure) : comp A := fun s => (inl e, s).

Definition lift {A : Type} (r : result A) : comp A := fun s => (r, s).

Definition get_this : comp rms_norm := fun s => (inr (this s), s).

Definition get_proc : comp process := fun s => (inr (proc s), s).

Definition modify_this (f : rms_norm -> rms_norm) : comp unit :=
  fun s => (inr tt, {| this := f (this s); proc := proc s |}).

Definition modify_proc (f : process -> process) : comp unit :=
  fun s => (inr tt, {| this := this s; proc := f (proc s) |}).

(** [std::call_once] on a static flag: the body runs only while the flag
    is unset, and the flag is set when the body returns. *)
Definition call_once (flag : process -> bool)
    (set_flag : bool -> process -> process) (body : comp unit) : comp unit :=
  p ← get_proc;
  if flag p then mret tt
  else body ;; modify_proc (set_flag true).

(** The template arguments of the one instantiation,
    [rms_norm<uint16_t, uint16_t, uint16_t>]. *)
Definition sizeof_LhsT : Z := 2.
Definition sizeof_WtsT : Z := 2.
Definition sizeof_OutT : Z := 2.
Definition sizeof_int : Z := 4.

Section Operator.

Variable P : platform.

(** ** Clock and device operations *)

(** Modelled from the spec: the macro [GET_ELAPSED_TIME_NS] comes from a
    header that is not available; it reads the clock. *)
Definition GET_ELAPSED_TIME_NS : comp Z :=
  p ← get_proc; mret (time_ns p).

(** An operation on host memory or on the device: it is appended to the
    trace and the clock advances by the time it takes. *)
Definition emit (e : event) : comp unit :=
  modify_proc (fun p =>
    set_time_ns (time_ns p + elapsed P e)
      (set_device_trace (device_trace p ++ [e]) p)).

Definition bo_of (r : bo_role) (o : rms_norm) : option xrt_bo :=
  match r with
  | BoA => a_bo_ o
  | BoB => b_bo_ o
  | BoC => c_bo_ o
  end.

Definition set_bo (r : bo_role) (b : option xrt_bo) (o : rms_norm) : rms_norm :=
  match r with
  | BoA => set_a_bo_ b o
  | BoB => set_b_bo_ b o
  | BoC => set_c_bo_ b o
  end.

(** [xrt_ctx_->get_device()] and [xrt_ctx_->get_kernel()]: [xrt_ctx_] is
    a null pointer until the constructor has loaded XRT. *)
Definition deref_xrt_ctx : comp xrt_context :=
  o ← get_this;
  match xrt_ctx_ o with
  | Some ctx => mret ctx
  | None => throw (undefined "xrt_ctx_ is null")
  end.

(** [xrt::bo(device, size, XRT_BO_FLAGS_HOST_ONLY, group)]: a new buffer
    object of [size] bytes. *)
Definition xrt_bo_new (size : Z) : comp xrt_bo :=
  _ ← deref_xrt_ctx;
  p ← get_proc;
  emit (ev_bo_alloc size);;
  modify_proc (set_bo_allocs (S (bo_allocs p)));;
  mret {| bo_size := size; address := bo_address_of P (bo_allocs p);
          bo_bytes := fresh_bytes P |}.

(** [bo.map<T*>()]: the host view of a buffer object; a default
    constructed [xrt::bo] has none. *)
Definition bo_map (r : bo_role) : comp xrt_bo :=
  o ← get_this;
  match bo_of r o with
  | Some b => mret b
  | None => throw (xrt_error "buffer object is not allocated")
  end.

(** [memcpy(bo_map, src, n)] into the mapped buffer object. *)
Definition memcpy_to_bo (r : bo_role) (b : xrt_bo) (src : mem) (n : Z) : comp unit :=
  if n <=? bo_size b then
    emit (ev_stage_write r n);;
    modify_this (set_bo r (Some (set_bo_bytes (memcpy (bo_bytes b) src n) b)))
  else throw (undefined "memcpy past the end of the buffer object").

(** [memcpy(dst, bo_map, n)] out of the mapped buffer object; the value
    is the memory behind [dst] after the copy. *)
Definition memcpy_from_bo (r : bo_role) (b : xrt_bo) (dst : mem) (n : Z) : comp mem :=
  if n <=? bo_size b then
    emit (ev_fetch_read r n);;
    mret (memcpy dst (bo_bytes b) n)
  else throw (undefined "memcpy past the end of the buffer object").

Inductive sync_direction : Type := XCL_BO_SYNC_BO_TO_DEVICE | XCL_BO_SYNC_BO_FROM_DEVICE.

(** [bo.sync(direction)]. *)
Definition bo_sync (r : bo_role) (d : sync_direction) : comp unit :=
  _ ← bo_map r;
  emit (match d with
        | XCL_BO_SYNC_BO_TO_DEVICE => ev_sync_to_device r
        | XCL_BO_SYNC_BO_FROM_DEVICE => ev_sync_from_device r
        end).

(** [kernel_(2, instr_bo, instr_bo_words, a, b, c, 0, 0)] followed by
    [run.wait2()]: the array reads the two input buffers and fills the
    output buffer. *)
Definition kernel_run (opcode : Z) (instr_bo : instr_blob) (instr_bo_words : Z) : comp unit :=
  a ← bo_map BoA;
  b ← bo_map BoB;
  c ← bo_map BoC;
  emit (ev_kernel_run opcode instr_bo_words
          (address a + DDR_AIE_ADDR_OFFSET P)
          (address b + DDR_AIE_ADDR_OFFSET P)
          (address c + DDR_AIE_ADDR_OFFSET P));;
  modify_this (set_c_bo_
    (Some (set_bo_bytes (aie_kernel P instr_bo (bo_bytes a) (bo_bytes b) (bo_bytes c)) c))).

(** Modelled from the spec: [xrt_context::get_instance] is declared in
    [xrt_context/xrt_context.hpp]. The first caller for a hardware-image
    path opens the device; every later caller for the same path receives
    the same context and the device is not opened again. *)
Definition xrt_context_get_instance (path : string) : comp xrt_context :=
  p ← get_proc;
  match xrt_contexts p !! path with
  | Some ctx => mret ctx
  | None =>
      let ctx := {| xclbin := path |} in
      emit (ev_device_open path);;
      modify_proc (fun p => set_xrt_contexts (<[path := ctx]> (xrt_contexts p)) p);;
      mret ctx
  end.

(** ** Instruction registry *)

(** Modelled from the spec: the member functions of
    [instruction_registry] ([utils/instruction_registry.hpp]).
    [setup_hw_ctx] records the device context; [add_instructions] and
    [add_layer_params] append candidate keys, each with its persistence
    flag, and load nothing; [get_instr_bo] resolves a key as described
    at the record above, and a failed request leaves the registry as it
    was. *)
Definition setup_hw_ctx (ctx : option xrt_context) : comp unit :=
  modify_this (fun o => set_instr_reg_ (set_hw_ctx ctx (instr_reg_ o)) o).

Definition add_instructions (instr : list (string * bool)) : comp unit :=
  modify_this (fun o =>
    set_instr_reg_ (set_instr_keys (instr_keys (instr_reg_ o) ++ instr) (instr_reg_ o)) o).

Definition add_layer_params (params : list (string * bool)) : comp unit :=
  modify_this (fun o =>
    set_instr_reg_
      (set_layer_param_keys (layer_param_keys (instr_reg_ o) ++ params) (instr_reg_ o)) o).

Fixpoint find_key (key : string) (entries : list (string * bool)) : option bool :=
  match entries with
  | [] => None
  | (k, persistent) :: rest =>
      if decide (k = key) then Some persistent else find_key key rest
  end.

Definition registered (key : string) (r : instruction_registry) : option bool :=
  find_key key (instr_keys r).

Definition get_instr_bo (key : string) : comp (bool * instr_blob) :=
  o ← get_this;
  match registered key (instr_reg_ o) with
  | None => throw (lookup_error key)
  | Some persistent =>
      match loaded (instr_reg_ o) !! key with
      | Some blob => mret (persistent, blob)
      | None =>
          match get_txn_str P key with
          | None => throw (lookup_error key)
          | Some bytes =>
              let blob := {| blob_bytes := bytes |} in
              emit (ev_instr_load key);;
              modify_this (fun o =>
                set_instr_reg_
                  (set_loaded (<[key := blob]> (loaded (instr_reg_ o))) (instr_reg_ o)) o);;
              mret (persistent, blob)
          end
      end
  end.

(** ** The operator *)

(** [getXCLBinName()]. *)
Definition getXCLBinName : string := dod_base_dir P +:+ XCLBIN_PATH P.

(** [extract_MK(input)]: the two extents, each stored in an [int]. *)
Definition extract_MK (input : Tensor) : result (Z * Z) :=
  if decide (length (shape input) ≠ 2%nat) then
    inl (runtime_error "rmsnorm expects a rank 2 tensor [Rows,Cols]")
  else
    match vector_at (shape input) 0 with
    | inl e => inl e
    | inr M =>
        match vector_at (shape input) 1 with
        | inl e => inl e
        | inr K => inr (to_int M, to_int K)
        end
    end.

(** The loop of [isSupportedShape] over the supported shapes. *)
Fixpoint shape_listed (shape_operand : Z * Z) (supported_shapes : list (Z * Z)) : bool :=
  match supported_shapes with
  | [] => false
  | supported :: rest =>
      if decide (supported = shape_operand) then true
      else shape_listed shape_operand rest
  end.

(** [default_shapes_.find(txn_fname_prefix_)->second]: dereferencing the
    iterator of a key the map does not hold is undefined. *)
Definition find_shapes : comp (list (Z * Z)) :=
  o ← get_this;
  match default_shapes_ o !! txn_fname_prefix_ o with
  | Some shapes => mret shapes
  | None => throw (undefined "default_shapes_.find() returned end()")
  end.

Definition isSupportedShape (operand : Tensor) : comp bool :=
  supported_shapes ← find_shapes;
  shape_operand ← lift (extract_MK operand);
  mret (shape_listed shape_operand supported_shapes).

Definition debug (enable : bool) : comp unit :=
  modify_this (set_debug_ enable).

Definition get_instr_key (prefix : string) (m k : Z) : string :=
  "mladfrmsnorm_" +:+ prefix +:+ "_" +:+ pretty m +:+ "_" +:+ pretty k.

Definition setup_instr_registry : comp unit :=
  supported_shapes ← find_shapes;
  o ← get_this;
  let instructions :=
    (fun tensor => (get_instr_key (txn_fname_prefix_ o) tensor.1 tensor.2, false))
      <$> supported_shapes in
  let layer_params := [] in
  setup_hw_ctx (xrt_ctx_ o);;
  add_instructions instructions;;
  add_layer_params layer_params.

(** [default_shapes_[key]]: [operator[]] adds an empty vector for a key
    the map does not hold. *)
Definition default_shapes_subscript (key : string) : comp (list (Z * Z)) :=
  o ← get_this;
  match default_shapes_ o !! key with
  | Some shapes => mret shapes
  | None =>
      modify_this (set_default_shapes_ (<[key := []]> (default_shapes_ o)));;
      mret []
  end.

(** [default_shapes_[key].push_back(entry)]. *)
Definition default_shapes_push_back (key : string) (entry : Z * Z) : comp unit :=
  shapes ← default_shapes_subscript key;
  modify_this (fun o =>
    set_default_shapes_ (<[key := shapes ++ [entry]]> (default_shapes_ o)) o).

(** The arguments [const_params] and [attr] are not read. *)
Definition initialize_const_params : comp unit :=
  entries ← default_shapes_subscript "rmsnorm_a16";
  let shape_vector := tuple_to_vector <$> entries in
  o ← get_this;
  let operand_size_in_bytes :=
    max_element_count_with_skips shape_vector [] * operand_dtype_size_ o in
  let wts_size_in_bytes :=
    max_element_count_with_skips shape_vector [0%nat] * operand_dtype_size_ o in
  a ← xrt_bo_new operand_size_in_bytes;
  modify_this (set_a_bo_ (Some a));;
  b ← xrt_bo_new wts_size_in_bytes;
  modify_this (set_b_bo_ (Some b));;
  c ← xrt_bo_new operand_size_in_bytes;
  modify_this (set_c_bo_ (Some c)).

(** The assignments that clear the timing record, at the end of the
    constructor and at the start of [execute]. *)
Definition reset_timers : comp unit :=
  modify_this (set_a_copy_time_ 0);;
  modify_this (set_a_sync_time_ 0);;
  modify_this (set_b_copy_time_ 0);;
  modify_this (set_b_sync_time_ 0);;
  modify_this (set_c_copy_time_ 0);;
  modify_this (set_c_sync_time_ 0);;
  modify_this (set_run_aie_time_ 0);;
  modify_this (set_num_run_aie_ 0).

(** Modelled from the spec: the macros [RYZENAI_LOG_INFO] and
    [RYZENAI_LOG_TRACE] are defined in [utils/logging.hpp]. They feed
    two channels, which the build switches separately (the options
    [RYZENAI_PERF] and [RYZENAI_TRACE]): [RYZENAI_LOG_INFO] hands its
    line to the process-wide, append-only metrics sink,
    [RYZENAI_LOG_TRACE] to the trace log. Each sink holds the lines its
    macro was handed. *)
Definition RYZENAI_LOG_INFO (l : log_line) : comp unit :=
  modify_proc (fun p => set_log_sink (log_sink p ++ [l]) p).

Definition RYZENAI_LOG_TRACE (l : log_line) : comp unit :=
  modify_proc (fun p => set_trace_sink (trace_sink p ++ [l]) p).

(** [std::map::at]. *)
Definition map_at {V : Type} (m : gmap string V) (key : string) : result V :=
  match m !! key with
  | Some v => inr v
  | None => inl out_of_range
  end.

(** The object before the constructor body runs: default-constructed
    members. *)
Definition rms_norm_default : rms_norm :=
  {| txnbin_operand_header := ∅; default_shapes_ := ∅; rms_norm_id_ := 0;
     debug_ := false; operand_dtype_ := ""; operand_dtype_size_ := 0;
     txn_fname_prefix_ := ""; instr_reg_ := instruction_registry_default;
     xrt_ctx_ := None; a_bo_ := None; b_bo_ := None; c_bo_ := None;
     operand_size_in_bytes_ := 0; wts_size_in_bytes_ := 0;
     a_copy_time_ := 0; a_sync_time_ := 0; b_copy_time_ := 0;
     b_sync_time_ := 0; c_copy_time_ := 0; c_sync_time_ := 0;
     run_aie_time_ := 0; num_run_aie_ := 0 |}.

Definition dtype_message : string :=
  "rmsnorm only supportes homogeneous bfloat16 data type " +:+
  "for activation, weights matrices and result".

(** The body of the constructor [rms_norm(operand_dtype, load_xrt)]. *)
Definition rms_norm_body (operand_dtype : string) (load_xrt : bool) : comp unit :=
  if decide (operand_dtype ≠ "bfloat16") then throw (runtime_error dtype_message)
  else
    modify_this (set_operand_dtype_ operand_dtype);;
    modify_this (set_operand_dtype_size_ sizeof_LhsT);;
    modify_this (set_txnbin_operand_header {[ "bfloat16" := "a16" ]});;
    modify_this (fun o =>
      set_default_shapes_ (<["rmsnorm_a16" := []]> (default_shapes_ o)) o);;
    default_shapes_push_back "rmsnorm_a16" (2048, 4096);;
    default_shapes_push_back "rmsnorm_a16" (1024, 4096);;
    default_shapes_push_back "rmsnorm_a16" (512, 4096);;
    default_shapes_push_back "rmsnorm_a16" (256, 4096);;
    default_shapes_push_back "rmsnorm_a16" (128, 4096);;
    p ← get_proc;
    modify_this (set_rms_norm_id_ (rms_norm_count p));;
    modify_proc (set_rms_norm_count ((rms_norm_count p + 1) mod 2 ^ 64));;
    let XCLBIN_FNAME := getXCLBinName in
    o ← get_this;
    header ← lift (map_at (txnbin_operand_header o) (operand_dtype_ o));
    modify_this (set_txn_fname_prefix_ ("rmsnorm_" +:+ header));;
    (if load_xrt then
       ctx ← xrt_context_get_instance XCLBIN_FNAME;
       modify_this (set_xrt_ctx_ (Some ctx));;
       call_once instr_reg_flag_ set_instr_reg_flag_ setup_instr_registry
     else mret tt);;
    reset_timers;;
    call_once logger_flag_ set_logger_flag_ (RYZENAI_LOG_INFO log_header);;
    o ← get_this;
    RYZENAI_LOG_TRACE (log_ctor (rms_norm_id_ o) XCLBIN_FNAME (operand_dtype_ o)).

(** Construction in a process [p]: the new object, or the failure the
    constructor threw, and the process afterwards. *)
Definition rms_norm_new (operand_dtype : string) (load_xrt : bool) (p : process)
    : result rms_norm * process :=
  match rms_norm_body operand_dtype load_xrt {| this := rms_norm_default; proc := p |} with
  | (inr _, s) => (inr (this s), proc s)
  | (inl e, s) => (inl e, proc s)
  end.

(** [output.at(0).data] after the copy: the caller's vector with the
    memory behind its first tensor replaced. *)
Definition with_output_data (output : list Tensor) (m : mem) : list Tensor :=
  match output with
  | [] => []
  | t :: rest => set_data m t :: rest
  end.

(** [execute(input, output)]; the value is the caller's [output] vector
    as the call leaves it. The two byte counts are products in
    [size_t]; the extents handed to [get_instr_key] are converted to
    its [int] parameters, the word count to the [int] it is stored
    in. *)
Definition execute (input output : list Tensor) : comp (list Tensor) :=
  in0 ← lift (vector_at input 0);
  let a := data in0 in
  in1 ← lift (vector_at input 1);
  let b := data in1 in
  reset_timers;;
  exec_start ← GET_ELAPSED_TIME_NS;
  supported ← isSupportedShape in0;
  if negb supported then throw (runtime_error "Unsupported shape for rmsnorm")
  else
    (* a_bo copy *)
    modify_this (fun o =>
      set_operand_size_in_bytes_
        (to_size_t
           (running_product_with_skips (shape in0) [] * operand_dtype_size_ o)) o);;
    a_copy_start ← GET_ELAPSED_TIME_NS;
    a_bo_map ← bo_map BoA;
    o ← get_this;
    memcpy_to_bo BoA a_bo_map a (operand_size_in_bytes_ o);;
    a_copy_stop ← GET_ELAPSED_TIME_NS;
    (* a_bo sync *)
    a_sync_start ← GET_ELAPSED_TIME_NS;
    bo_sync BoA XCL_BO_SYNC_BO_TO_DEVICE;;
    a_sync_stop ← GET_ELAPSED_TIME_NS;
    modify_this (set_a_copy_time_ (a_copy_stop - a_copy_start));;
    modify_this (set_a_sync_time_ (a_sync_stop - a_sync_start));;
    (* b_bo copy *)
    modify_this (fun o =>
      set_wts_size_in_bytes_
        (to_size_t
           (running_product_with_skips (shape in1) [] * operand_dtype_size_ o)) o);;
    b_copy_start ← GET_ELAPSED_TIME_NS;
    b_bo_map ← bo_map BoB;
    o ← get_this;
    memcpy_to_bo BoB b_bo_map b (wts_size_in_bytes_ o);;
    b_copy_stop ← GET_ELAPSED_TIME_NS;
    (* b_bo sync *)
    b_sync_start ← GET_ELAPSED_TIME_NS;
    bo_sync BoB XCL_BO_SYNC_BO_TO_DEVICE;;
    b_sync_stop ← GET_ELAPSED_TIME_NS;
    modify_this (set_b_copy_time_ (b_copy_stop - b_copy_start));;
    modify_this (set_b_sync_time_ (b_sync_stop - b_sync_start));;
    (* prepare inst_bo and param_bo *)
    m ← lift (vector_at (shape in0) 0);
    k ← lift (vector_at (shape in0) 1);
    o ← get_this;
    let instr_bo_key := get_instr_key (txn_fname_prefix_ o) (to_int m) (to_int k) in
    entry ← get_instr_bo instr_bo_key;
    let instr_bo := entry.2 in
    let instr_bo_words :=
      to_int (Z.of_nat (length (blob_bytes instr_bo)) / sizeof_int) in
    _ ← deref_xrt_ctx;
    (* launch the kernel *)
    run_aie_start ← GET_ELAPSED_TIME_NS;
    kernel_run 2 instr_bo instr_bo_words;;
    run_aie_stop ← GET_ELAPSED_TIME_NS;
    modify_this (fun o =>
      set_run_aie_time_ (run_aie_time_ o + (run_aie_stop - run_aie_start)) o);;
    modify_this (fun o => set_num_run_aie_ (num_run_aie_ o + 1) o);;
    (* sync output activation to host memory *)
    c_sync_start ← GET_ELAPSED_TIME_NS;
    bo_sync BoC XCL_BO_SYNC_BO_FROM_DEVICE;;
    c_sync_stop ← GET_ELAPSED_TIME_NS;
    modify_this (fun o =>
      set_c_sync_time_ (c_sync_time_ o + (c_sync_stop - c_sync_start)) o);;
    (* copy c_bo to host memory *)
    out0 ← lift (vector_at output 0);
    let aie_out := data out0 in
    c_copy_start ← GET_ELAPSED_TIME_NS;
    c_bo_map ← bo_map BoC;
    o ← get_this;
    copied ← memcpy_from_bo BoC c_bo_map aie_out (operand_size_in_bytes_ o);
    c_copy_stop ← GET_ELAPSED_TIME_NS;
    modify_this (set_c_copy_time_ (c_copy_stop - c_copy_start));;
    exec_end ← GET_ELAPSED_TIME_NS;
    o ← get_this;
    RYZENAI_LOG_INFO
      (log_timing (rms_norm_id_ o) (exec_end - exec_start) (num_run_aie_ o)
         (run_aie_time_ o) (a_copy_time_ o) (a_sync_time_ o) (b_copy_time_ o)
         (b_sync_time_ o) (c_copy_time_ o) (c_sync_time_ o));;
    mret (with_output_data output copied).

(** ** Buffer requirements *)

Inductive OpArgType : Type := INPUT | OUTPUT.

(** [OpArgMap], as the initialisers of [get_buffer_reqs] fill it: the
    role, two argument indices, an offset and a size in bytes. *)
Record OpArgMap : Type := {
  arg_type : OpArgType;
  xrt_arg_idx : Z;
  onnx_arg_idx : Z;
  offset : Z;
  size : Z
}.

Definition newline : string := String "010"%char EmptyString.

Definition result_mismatch_message : string :=
  "mismatch shape of activation and result not " +:+
  "supported for rmsnorm" +:+ newline.

Definition weights_mismatch_message : string :=
  "Mismatched shape between rmsnorm weights and activation/result " +:+
  "not supported for rmsnorm".

(** [get_buffer_reqs(input, output, attr)]; [attr] is not read. The
    two shapes are tuples of [int], the weight length is the [size_t]
    element of the shape vector: the column count is converted to
    [size_t] for the comparison with it, the element count of the
    operand is a product of [int] values, and the three sizes are
    products in [size_t]. *)
Definition get_buffer_reqs (input output : list Tensor) : comp (list OpArgMap) :=
  in0 ← lift (vector_at input 0);
  shape_operand ← lift (extract_MK in0);
  in1 ← lift (vector_at input 1);
  shape_wts ← lift (vector_at (shape in1) 0);
  out0 ← lift (vector_at output 0);
  shape_result ← lift (extract_MK out0);
  if decide (shape_operand ≠ shape_result) then
    throw (runtime_error result_mismatch_message)
  else if decide (to_size_t shape_result.2 ≠ shape_wts) then
    throw (runtime_error weights_mismatch_message)
  else
    let num_elem_operand :=
      to_int (running_product_with_skips (tuple_to_vector shape_operand) []) in
    let num_elem_wts := shape_wts in
    let input_1_bo_size := to_size_t (num_elem_operand * sizeof_LhsT) in
    let input_2_bo_size := to_size_t (num_elem_wts * sizeof_WtsT) in
    let output_bo_size := to_size_t (num_elem_operand * sizeof_OutT) in
    mret [ {| arg_type := INPUT; xrt_arg_idx := 0; onnx_arg_idx := 0;
              offset := 0; size := input_1_bo_size |};
           {| arg_type := INPUT; xrt_arg_idx := 1; onnx_arg_idx := 1;
              offset := 0; size := input_2_bo_size |};
           {| arg_type := OUTPUT; xrt_arg_idx := 2; onnx_arg_idx := 2;
              offset := 0; size := output_bo_size |} ].

End Operator.

(** ** A concrete platform *)

(** A platform to run the model on: every operation takes [1] ns except
    a kernel run, which takes [1000]; the artifact store holds a
    sixteen-byte stream for the key of shape [(128, 4096)] only; the
    kernel copies the first input buffer to the output buffer. *)
Definition demo_platform : platform :=
  {| elapsed := fun e => match e with ev_kernel_run _ _ _ _ _ => 1000 | _ => 1 end;
     get_txn_str := fun key =>
       if decide (key = "mladfrmsnorm_rmsnorm_a16_128_4096")
       then Some (replicate 16 x00) else None;
     aie_kernel := fun _ a _ _ => a;
     fresh_bytes := fun _ => x00;
     bo_address_of := fun n => 4096 * Z.of_nat n;
     dod_base_dir := "/dod";
     XCLBIN_PATH := "/xclbin/mladf.xclbin";
     DDR_AIE_ADDR_OFFSET := 2147483648 |}.

Definition tensor_of (bytes : mem) (dims : list Z) : Tensor :=
  {| data := bytes; shape := dims; dtype := "bfloat16" |}.

Definition demo_activation : Tensor := tensor_of (fun _ => x01) [128; 4096].
Definition demo_weights : Tensor := tensor_of (fun _ => x02) [4096].
Definition demo_result : Tensor := tensor_of (fun _ => x00) [128; 4096].

(** The first operator of a process on the demo platform, constructed
    with XRT loaded, and the same after [initialize_const_params]. *)
Definition demo_constructed : state :=
  match rms_norm_new demo_platform "bfloat16" true process_start with
  | (inr o, p) => {| this := o; proc := p |}
  | (inl _, p) => {| this := rms_norm_default; proc := p |}
  end.

Definition demo_ready : state :=
  (initialize_const_params demo_platform demo_constructed).2.

(** The state one successful call later. *)
Definition demo_after_run : state :=
  (execute demo_platform [demo_activation; demo_weights] [demo_result] demo_ready).2.

(** The supported-shape table the constructor fills in, and the
    instruction keys of its entries. *)
Definition rmsnorm_a16_shapes : list (Z * Z) :=
  [(2048, 4096); (1024, 4096); (512, 4096); (256, 4096); (128, 4096)].

Definition rmsnorm_a16_keys : list (string * bool) :=
  [("mladfrmsnorm_rmsnorm_a16_2048_4096", false);
   ("mladfrmsnorm_rmsnorm_a16_1024_4096", false);
   ("mladfrmsnorm_rmsnorm_a16_512_4096", false);
   ("mladfrmsnorm_rmsnorm_a16_256_4096", false);
   ("mladfrmsnorm_rmsnorm_a16_128_4096", false)].

(** The object after the eight assignments that clear the timing
    record. *)
Definition timers_cleared (o : rms_norm) : rms_norm :=
  set_num_run_aie_ 0 (set_run_aie_time_ 0 (set_c_sync_time_ 0 (set_c_copy_time_ 0
    (set_b_sync_time_ 0 (set_b_copy_time_ 0 (set_a_sync_time_ 0
      (set_a_copy_time_ 0 o))))))).

Definition rank_message : string := "rmsnorm expects a rank 2 tensor [Rows,Cols]".

Definition unsupported_message : string := "Unsupported shape for rmsnorm".

(** The shape errors of [execute]: the rank error of [extract_MK] and
    the rejection of a shape that is not in the table. *)
Definition is_shape_error (e : failure) : Prop :=
  e = runtime_error rank_message ∨ e = runtime_error unsupported_message.

(** The byte sizes of the three staging buffers, where allocated. *)
Definition bo_sizes (o : rms_norm) : option Z * option Z * option Z :=
  (bo_size <$> a_bo_ o, bo_size <$> b_bo_ o, bo_size <$> c_bo_ o).

(** Whether a result is a value. *)
Definition returned {A : Type} (r : result A) : bool :=
  match r with
  | inr _ => true
  | inl _ => false
  end.

Definition demo_unsupported : Tensor := tensor_of (fun _ => x01) [100; 4096].

(** What a call of [execute] needs in order to return: two input
    tensors and one output tensor, a primary input whose extents,
    converted to [int], are a listed shape, three allocated staging
    buffers large enough for the bytes the call copies, a device
    context, and an instruction key that is registered and either
    loaded already or backed by an artifact. *)
Definition can_execute (P : platform) (input output : list Tensor) (o : rms_norm) : Prop :=
  ∃ (in0 in1 out0 : Tensor) (table : list (Z * Z)) (M K : Z) (a b c : xrt_bo)
    (ctx : xrt_context),
    input !! 0%nat = Some in0 ∧ input !! 1%nat = Some in1 ∧
    output !! 0%nat = Some out0 ∧
    default_shapes_ o !! txn_fname_prefix_ o = Some table ∧
    shape in0 = [M; K] ∧ (to_int M, to_int K) ∈ table ∧
    a_bo_ o = Some a ∧ to_size_t (M * K * operand_dtype_size_ o) ≤ bo_size a ∧
    b_bo_ o = Some b ∧
    to_size_t (running_product_with_skips (shape in1) [] * operand_dtype_size_ o)
      ≤ bo_size b ∧
    c_bo_ o = Some c ∧ to_size_t (M * K * operand_dtype_size_ o) ≤ bo_size c ∧
    xrt_ctx_ o = Some ctx ∧
    is_Some (find_key (get_instr_key (txn_fname_prefix_ o) (to_int M) (to_int K))
               (instr_keys (instr_reg_ o))) ∧
    (is_Some (loaded (instr_reg_ o)
                !! get_instr_key (txn_fname_prefix_ o) (to_int M) (to_int K)) ∨
     is_Some (get_txn_str P (get_instr_key (txn_fname_prefix_ o) (to_int M) (to_int K)))).

(** A string without the separator of the instruction keys. *)
Fixpoint underscore_free (s : string) : Prop :=
  match s with
  | EmptyString => True
  | String a rest => a ≠ "_"%char ∧ underscore_free rest
  end.

(** * Properties *)

(** ** Reasoning about computations *)

Ltac unfold_comp :=
  unfold mbind, comp_bind, mret, comp_ret, throw, lift, get_this, get_proc,
    modify_this, modify_proc in *.

(** Projections of updated records. *)
Ltac proj_simpl :=
  cbn [this proc
       txnbin_operand_header default_shapes_ rms_norm_id_ debug_ operand_dtype_
       operand_dtype_size_ txn_fname_prefix_ instr_reg_ xrt_ctx_ a_bo_ b_bo_ c_bo_
       operand_size_in_bytes_ wts_size_in_bytes_ a_copy_time_ a_sync_time_
       b_copy_time_ b_sync_time_ c_copy_time_ c_sync_time_ run_aie_time_ num_run_aie_
       set_txnbin_operand_header set_default_shapes_ set_rms_norm_id_ set_debug_
       set_operand_dtype_ set_operand_dtype_size_ set_txn_fname_prefix_ set_instr_reg_
       set_xrt_ctx_ set_a_bo_ set_b_bo_ set_c_bo_ set_operand_size_in_bytes_
       set_wts_size_in_bytes_ set_a_copy_time_ set_a_sync_time_ set_b_copy_time_
       set_b_sync_time_ set_c_copy_time_ set_c_sync_time_ set_run_aie_time_
       set_num_run_aie_
       rms_norm_count logger_flag_ instr_reg_flag_ xrt_contexts log_sink trace_sink
       device_trace time_ns bo_allocs
       set_rms_norm_count set_logger_flag_ set_instr_reg_flag_ set_xrt_contexts
       set_log_sink set_trace_sink set_device_trace set_time_ns set_bo_allocs
       hw_ctx instr_keys layer_param_keys loaded
       set_hw_ctx set_instr_keys set_layer_param_keys set_loaded
       bo_size address bo_bytes set_bo_size set_address set_bo_bytes
       data shape dtype set_data set_shape set_dtype
       bo_of set_bo fst snd negb] in *.

(** The innermost term a stuck [match] waits for. *)
Ltac innermost t :=
  match t with
  | context [match ?y with _ => _ end] => innermost y
  | _ => t
  end.

(** One step of a run of the constructor: case analysis on the next
    test the computation in the goal makes; a test whose outcome is a
    hypothesis is rewritten instead. *)
Ltac step :=
  proj_simpl;
  match goal with
  | |- context [match ?x with _ => _ end] =>
      let y := innermost x in
      first [ match goal with E : y = _ |- _ => rewrite E end
            | destruct y eqn:? ]
  end.

Lemma run_bind {A B : Type} (k : A → comp B) (c : comp A) (s : state) :
  (c ≫= k) s = match c s with
               | (inr x, s') => k x s'
               | (inl e, s') => (inl e, s')
               end.
Proof. reflexivity. Qed.

(** Reduction of the state operations on a state given field by
    field. *)
Ltac state_simpl :=
  cbv beta iota zeta delta [this proc
       txnbin_operand_header default_shapes_ rms_norm_id_ debug_ operand_dtype_
       operand_dtype_size_ txn_fname_prefix_ instr_reg_ xrt_ctx_ a_bo_ b_bo_ c_bo_
       operand_size_in_bytes_ wts_size_in_bytes_ a_copy_time_ a_sync_time_
       b_copy_time_ b_sync_time_ c_copy_time_ c_sync_time_ run_aie_time_ num_run_aie_
       set_txnbin_operand_header set_default_shapes_ set_rms_norm_id_ set_debug_
       set_operand_dtype_ set_operand_dtype_size_ set_txn_fname_prefix_ set_instr_reg_
       set_xrt_ctx_ set_a_bo_ set_b_bo_ set_c_bo_ set_operand_size_in_bytes_
       set_wts_size_in_bytes_ set_a_copy_time_ set_a_sync_time_ set_b_copy_time_
       set_b_sync_time_ set_c_copy_time_ set_c_sync_time_ set_run_aie_time_
       set_num_run_aie_
       rms_norm_count logger_flag_ instr_reg_flag_ xrt_contexts log_sink trace_sink
       device_trace time_ns bo_allocs
       set_rms_norm_count set_logger_flag_ set_instr_reg_flag_ set_xrt_contexts
       set_log_sink set_trace_sink set_device_trace set_time_ns set_bo_allocs
       hw_ctx instr_keys layer_param_keys loaded
       set_hw_ctx set_instr_keys set_layer_param_keys set_loaded
       bo_size address bo_bytes set_bo_size set_address set_bo_bytes
       bo_of set_bo fst snd negb
       mret comp_ret throw lift get_this get_proc modify_this modify_proc
       vector_at timers_cleared bo_sizes].

(** One step of a run of a member function: the outermost bind is
    opened, the state operations are reduced, or the next test is
    analysed by cases. *)
Ltac run1 :=
  first
    [ rewrite run_bind
    | progress state_simpl
    | match goal with
      | |- context [match ?x with _ => _ end] =>
          let y := innermost x in
          first [ match goal with E : y = _ |- _ => rewrite E end
                | destruct y eqn:? ]
      end ].

(** The operations [execute] is made of, down to the primitive
    computations. *)
Ltac open_execute :=
  unfold execute, isSupportedShape, reset_timers, bo_sync, kernel_run,
    memcpy_to_bo, memcpy_from_bo, get_instr_bo, RYZENAI_LOG_INFO;
  unfold find_shapes, bo_map, deref_xrt_ctx, emit, GET_ELAPSED_TIME_NS, registered.

(** A state given field by field. *)
Ltac split_state s :=
  destruct s as [[o_header o_shapes o_id o_debug o_dtype o_dtype_size o_prefix
                  o_reg o_ctx o_a o_b o_c o_operand_size o_wts_size
                  o_a_copy o_a_sync o_b_copy o_b_sync o_c_copy o_c_sync
                  o_run_time o_runs]
                 [p_count p_logger_flag p_reg_flag p_contexts p_log p_tracelog
                  p_trace p_now p_allocs]].

(** A run of [execute] from a state given field by field. *)
Ltac run_execute s := split_state s; open_execute; repeat run1.

Lemma run_eq {A : Type} (c : result A * state) (r : result A) :
  c.1 = r → c = (r, c.2).
Proof. destruct c as [r' s']; simpl. intros ->. reflexivity. Qed.

Lemma run_returned {A : Type} (c : result A * state) :
  returned c.1 = true → ∃ x, c = (inr x, c.2).
Proof. destruct c as [[e|x] s]; simpl; [discriminate | eauto]. Qed.

Lemma shape_listed_elem_of (shape_operand : Z * Z) (supported_shapes : list (Z * Z)) :
  shape_listed shape_operand supported_shapes = true ↔ shape_operand ∈ supported_shapes.
Proof.
  induction supported_shapes as [|supported rest IH]; simpl.
  - split; [discriminate | intros H; inversion H].
  - destruct (decide (supported = shape_operand)) as [->|Hne].
    + split; [intros _; left | reflexivity].
    + rewrite IH. split; [intros H; by right |].
      intros H. apply elem_of_cons in H as [H|H]; [congruence | done].
Qed.

Lemma to_int_fits (z : Z) : - 2 ^ 31 ≤ z < 2 ^ 31 → to_int z = z.
Proof. intros H. unfold to_int. rewrite Z.mod_small by lia. lia. Qed.

Lemma to_size_t_fits (z : Z) : 0 ≤ z < 2 ^ 64 → to_size_t z = z.
Proof. intros H. unfold to_size_t. by rewrite Z.mod_small. Qed.

Lemma extract_MK_rank2 (t : Tensor) (M K : Z) :
  shape t = [M; K] → extract_MK t = inr (to_int M, to_int K).
Proof. intros H. unfold extract_MK. rewrite H. reflexivity. Qed.

Lemma extract_MK_other_rank (t : Tensor) :
  length (shape t) ≠ 2%nat →
  extract_MK t = inl (runtime_error rank_message).
Proof. intros H. unfold extract_MK. destruct (decide _); [reflexivity | contradiction]. Qed.

Lemma extract_MK_inr (t : Tensor) (mk : Z * Z) :
  extract_MK t = inr mk → ∃ M K : Z, shape t = [M; K] ∧ mk = (to_int M, to_int K).
Proof.
  unfold extract_MK. destruct (decide _) as [|Hlen]; [discriminate |].
  apply dec_stable in Hlen.
  destruct (shape t) as [|M [|K [|? ?]]]; simpl in Hlen; try discriminate.
  simpl. intros [= <-]. by exists M, K.
Qed.

Lemma extract_MK_inl (t : Tensor) (e : failure) :
  extract_MK t = inl e → e = runtime_error rank_message.
Proof.
  unfold extract_MK. destruct (decide _) as [|Hlen]; [by intros [= <-] |].
  apply dec_stable in Hlen.
  destruct (shape t) as [|M [|K [|? ?]]]; simpl in Hlen; discriminate.
Qed.

Lemma memcpy_prefix (dst src : mem) (n i : Z) :
  0 ≤ i < n → memcpy dst src n i = src i.
Proof.
  intros [Hlo Hhi]. unfold memcpy.
  destruct (Z.leb_spec 0 i); [| lia]. destruct (Z.ltb_spec i n); [reflexivity | lia].
Qed.

(** ** Shape validator *)




(** ** Construction *)

Lemma default_shapes_push_back_run (key : string) (entry : Z * Z) (s : state)
    (shapes : list (Z * Z)) :
  default_shapes_ (this s) !! key = Some shapes →
  default_shapes_push_back key entry s =
    (inr tt,
     {| this := set_default_shapes_
                  (<[key := shapes ++ [entry]]> (default_shapes_ (this s))) (this s);
        proc := proc s |}).
Proof.
  intros H. unfold default_shapes_push_back, default_shapes_subscript. unfold_comp.
  rewrite H. reflexivity.
Qed.

Lemma rmsnorm_a16_keys_eq :
  (λ tensor : Z * Z, (get_instr_key "rmsnorm_a16" tensor.1 tensor.2, false))
    <$> rmsnorm_a16_shapes = rmsnorm_a16_keys.
Proof. vm_compute. reflexivity. Qed.

(** What the constructor leaves behind when it accepts the dtype tag. *)
Lemma rms_norm_new_accepts (P : platform) (load_xrt : bool) (p : process) :
  ∃ (o : rms_norm) (p' : process),
    rms_norm_new P "bfloat16" load_xrt p = (inr o, p') ∧
    default_shapes_ o !! "rmsnorm_a16" = Some rmsnorm_a16_shapes ∧
    txn_fname_prefix_ o = "rmsnorm_a16" ∧
    operand_dtype_size_ o = sizeof_LhsT ∧
    a_bo_ o = None ∧ b_bo_ o = None ∧ c_bo_ o = None ∧
    num_run_aie_ o = 0 ∧
    bo_allocs p' = bo_allocs p ∧
    (load_xrt = true →
       ∃ ctx : xrt_context,
         xrt_ctx_ o = Some ctx ∧
         instr_reg_flag_ p' = true ∧
         instr_reg_ o =
           if instr_reg_flag_ p then instruction_registry_default
           else {| hw_ctx := Some ctx;
                   instr_keys := rmsnorm_a16_keys;
                   layer_param_keys := [];
                   loaded := ∅ |}).
Proof.
  unfold rms_norm_new, rms_norm_body.
  destruct (decide ("bfloat16" ≠ "bfloat16")) as [Hne|_]; [by destruct Hne |].
  unfold_comp. proj_simpl.
  rewrite (default_shapes_push_back_run _ _ _ []) by (proj_simpl; apply lookup_insert_eq).
  rewrite (default_shapes_push_back_run _ _ _ ([] ++ [(2048, 4096)]))
    by (proj_simpl; apply lookup_insert_eq).
  rewrite (default_shapes_push_back_run _ _ _ (([] ++ [(2048, 4096)]) ++ [(1024, 4096)]))
    by (proj_simpl; apply lookup_insert_eq).
  rewrite (default_shapes_push_back_run _ _ _
             ((([] ++ [(2048, 4096)]) ++ [(1024, 4096)]) ++ [(512, 4096)]))
    by (proj_simpl; apply lookup_insert_eq).
  rewrite (default_shapes_push_back_run _ _ _
             (((([] ++ [(2048, 4096)]) ++ [(1024, 4096)]) ++ [(512, 4096)])
              ++ [(256, 4096)]))
    by (proj_simpl; apply lookup_insert_eq).
  proj_simpl. unfold map_at. rewrite lookup_singleton_eq.
  change ("rmsnorm_" +:+ "a16") with "rmsnorm_a16".
  set (table := <["rmsnorm_a16" := _]> (<["rmsnorm_a16" := _]> (<["rmsnorm_a16" := _]>
                 (<["rmsnorm_a16" := _]> (<["rmsnorm_a16" := _]>
                   (<["rmsnorm_a16" := _]> _)))))).
  assert (Htable : table !! "rmsnorm_a16" = Some rmsnorm_a16_shapes)
    by (subst table; apply lookup_insert_eq).
  clearbody table.
  unfold reset_timers, call_once, RYZENAI_LOG_INFO, RYZENAI_LOG_TRACE,
    setup_instr_registry,
    xrt_context_get_instance, setup_hw_ctx, add_instructions, add_layer_params,
    find_shapes, emit.
  unfold_comp.
  destruct load_xrt.
  all: repeat step.
  all: proj_simpl; eexists _, _; (split; [reflexivity |]); proj_simpl.
  all: repeat (split; [first [assumption | reflexivity] |]).
  all: try discriminate.
  all: intros _; eexists; split; [eassumption || reflexivity |];
    split; [first [reflexivity | assumption] |].
  all: try match goal with E : instr_reg_flag_ _ = _ |- _ => rewrite E end.
  all: try reflexivity.
  all: unfold set_layer_param_keys, set_instr_keys, set_hw_ctx; proj_simpl;
    unfold instruction_registry_default; proj_simpl; f_equal; vm_compute; reflexivity.
Qed.

(** C8. Construction with a dtype tag other than ["bfloat16"] fails at
    once with the message naming the one accepted family, and the
    process is exactly as before: no device context was opened, no
    buffer object allocated, no static member touched. Construction with
    ["bfloat16"] does not raise that error. *)
Theorem constructor_dtype_check (P : platform) (operand_dtype : string)
    (load_xrt : bool) (p : process) :
  operand_dtype ≠ "bfloat16" →
  rms_norm_new P operand_dtype load_xrt p = (inl (runtime_error dtype_message), p) ∧
  (rms_norm_new P "bfloat16" load_xrt p).1 ≠ inl (runtime_error dtype_message).
Proof.
  intros Hne. split.
  - unfold rms_norm_new, rms_norm_body.
    destruct (decide (operand_dtype ≠ "bfloat16")); [reflexivity | contradiction].
  - destruct (rms_norm_new_accepts P load_xrt p) as (o & p' & Hnew & _).
    rewrite Hnew. discriminate.
Qed.

Lemma constructor_dtype_check_witness :
  rms_norm_new demo_platform "float32" true process_start
    = (inl (runtime_error dtype_message), process_start) ∧
  (rms_norm_new demo_platform "bfloat16" true process_start).1
    ≠ inl (runtime_error dtype_message).
Proof.
  apply (constructor_dtype_check demo_platform "float32" true process_start).
  discriminate.
Defined.

(** ** Instruction registry set-up *)



(** ** Execution pipeline *)

(** C10. A call of [execute] with fewer than two input tensors raises
    [std::out_of_range] from the accesses [input.at(0)] and
    [input.at(1)] that open the function; the operator and the process
    are exactly as before, so no shape was validated, no staging buffer
    written and the device not touched. *)
Theorem execute_too_few_inputs (P : platform) (input output : list Tensor) (s : state) :
  (length input < 2)%nat →
  execute P input output s = (inl out_of_range, s).
Proof.
  intros Hlen. unfold execute, vector_at. unfold_comp.
  destruct input as [|in0 [|in1 rest]]; simpl in Hlen; try lia; reflexivity.
Qed.

Lemma execute_too_few_inputs_witness :
  execute demo_platform [demo_activation] [demo_result] demo_ready
    = (inl out_of_range, demo_ready).
Proof.
  apply (execute_too_few_inputs demo_platform [demo_activation] [demo_result] demo_ready).
  simpl. lia.
Defined.

Lemma running_product_pair (M K : Z) :
  running_product_with_skips [M; K] [] = M * K.
Proof.
  unfold running_product_with_skips, product_from.
  rewrite !bool_decide_eq_false_2 by apply not_elem_of_nil. lia.
Qed.

(** C2 (amended). [num_run_aie_] counts the hardware runs of the current
    call: a call of [execute] that returns leaves it equal to 1, whatever
    it was before, and a call that fails with a shape error leaves it
    at 0. *)
Theorem invocation_counter_per_call (P : platform) (input output : list Tensor)
    (s s' : state) (r : result (list Tensor)) :
  execute P input output s = (r, s') →
  (∀ out, r = inr out → num_run_aie_ (this s') = 1) ∧
  (∀ e, r = inl e → is_shape_error e → num_run_aie_ (this s') = 0).
Proof.
  run_execute s.
  all: intros; simplify_eq.
  all: split; [intros out Hr | intros e Hr [He|He]]; simplify_eq; reflexivity.
Qed.

Lemma invocation_counter_per_call_witness :
  (∀ out, (execute demo_platform [demo_activation; demo_weights] [demo_result]
             demo_after_run).1 = inr out →
     num_run_aie_
       (this (execute demo_platform [demo_activation; demo_weights] [demo_result]
                demo_after_run).2) = 1) ∧
  (∀ e, (execute demo_platform [demo_activation; demo_weights] [demo_result]
           demo_after_run).1 = inl e →
     is_shape_error e →
     num_run_aie_
       (this (execute demo_platform [demo_activation; demo_weights] [demo_result]
                demo_after_run).2) = 0).
Proof.
  exact (invocation_counter_per_call demo_platform
           [demo_activation; demo_weights] [demo_result] demo_after_run _ _
           (surjective_pairing _)).
Defined.

(** C2, the claim as stated fails: on an operator that has completed one
    call the counter is 1; a second successful call leaves it at 1, not
    strictly greater, and a call rejected for its shape leaves it at 0,
    not unchanged. *)
Lemma invocation_counter_not_monotone :
  num_run_aie_ (this demo_after_run) = 1 ∧
  (∃ out s',
     execute demo_platform [demo_activation; demo_weights] [demo_result] demo_after_run
       = (inr out, s') ∧
     ¬ (num_run_aie_ (this demo_after_run) < num_run_aie_ (this s'))) ∧
  (∃ s',
     execute demo_platform [demo_unsupported; demo_weights] [demo_result] demo_after_run
       = (inl (runtime_error unsupported_message), s') ∧
     num_run_aie_ (this s') ≠ num_run_aie_ (this demo_after_run)).
Proof.
  split; [vm_compute; reflexivity |]. split.
  - destruct (run_returned
                (execute demo_platform [demo_activation; demo_weights] [demo_result]
                   demo_after_run)) as [out Hout]; [vm_compute; reflexivity |].
    eexists out, _. split; [exact Hout |].
    vm_compute. intros H. discriminate H.
  - eexists. split.
    + apply run_eq. vm_compute. reflexivity.
    + vm_compute. intros H. discriminate H.
Qed.




(** The validation sees the extents as [int] values: a primary input
    of 4294967424 rows and 4096 columns, which is no entry of the
    table, passes it, and the call goes on to the staging copy of input
    A; the byte count of the shape exceeds the buffer, which leaves the
    behaviour of the copy undefined. *)
Lemma narrowed_shape_passes_validation :
  (execute demo_platform [tensor_of (fun _ => x01) [4294967424; 4096]; demo_weights]
     [demo_result] demo_ready).1
    = inl (undefined "memcpy past the end of the buffer object") ∧
  operand_size_in_bytes_
    (this (execute demo_platform
             [tensor_of (fun _ => x01) [4294967424; 4096]; demo_weights]
             [demo_result] demo_ready).2) = 35184373137408 ∧
  (4294967424, 4096) ∉ rmsnorm_a16_shapes.
Proof.
  split; [vm_compute; reflexivity |]. split; [vm_compute; reflexivity |].
  unfold rmsnorm_a16_shapes. rewrite !elem_of_cons.
  intros [H|[H|[H|[H|[H|H]]]]]; [discriminate H .. | inversion H].
Qed.

(** C5 (amended). When [execute] returns, the last operation on the
    device trace is the copy out of the output staging buffer, and the
    number of bytes it copies is the byte count of the primary input's
    shape, rows times columns times the element size as a [size_t]
    product, the value kept in [operand_size_in_bytes_] since the
    staging of input A; the caller's output vector is returned with
    these bytes laid over the memory of its first tensor. The shape of
    the output tensor is not read. *)
Theorem fetch_sized_by_operand (P : platform) (input output out : list Tensor)
    (s s' : state) :
  execute P input output s = (inr out, s') →
  ∃ (in0 out0 : Tensor) (M K : Z) (c : xrt_bo),
    input !! 0%nat = Some in0 ∧ shape in0 = [M; K] ∧
    output !! 0%nat = Some out0 ∧
    c_bo_ (this s') = Some c ∧
    operand_size_in_bytes_ (this s')
      = to_size_t (M * K * operand_dtype_size_ (this s)) ∧
    last (device_trace (proc s'))
      = Some (ev_fetch_read BoC (to_size_t (M * K * operand_dtype_size_ (this s)))) ∧
    out = with_output_data output
            (memcpy (data out0) (bo_bytes c)
               (to_size_t (M * K * operand_dtype_size_ (this s)))).
Proof.
  run_execute s.
  all: intros; simplify_eq.
  all: match goal with
       | E : extract_MK ?t = inr ?mk |- _ =>
           destruct (extract_MK_inr _ _ E) as (M & K & Hshape & ->)
       end.
  all: eexists _, _, M, K, _.
  all: split; [reflexivity |]; split; [exact Hshape |].
  all: split; [reflexivity |]; split; [reflexivity |].
  all: rewrite ?last_snoc, Hshape, running_product_pair.
  all: repeat split; reflexivity.
Qed.

Lemma fetch_sized_by_operand_witness :
  ∃ (out : list Tensor) (s' : state),
    execute demo_platform [demo_activation; demo_weights] [demo_result] demo_ready
      = (inr out, s') ∧
    ∃ (in0 out0 : Tensor) (M K : Z) (c : xrt_bo),
      ([demo_activation; demo_weights] : list Tensor) !! 0%nat = Some in0 ∧
      shape in0 = [M; K] ∧
      ([demo_result] : list Tensor) !! 0%nat = Some out0 ∧
      c_bo_ (this s') = Some c ∧
      operand_size_in_bytes_ (this s')
        = to_size_t (M * K * operand_dtype_size_ (this demo_ready)) ∧
      last (device_trace (proc s'))
        = Some (ev_fetch_read BoC
                  (to_size_t (M * K * operand_dtype_size_ (this demo_ready)))) ∧
      out = with_output_data [demo_result]
              (memcpy (data out0) (bo_bytes c)
                 (to_size_t (M * K * operand_dtype_size_ (this demo_ready)))).
Proof.
  destruct (run_returned
              (execute demo_platform [demo_activation; demo_weights] [demo_result]
                 demo_ready)) as [out Hout]; [vm_compute; reflexivity |].
  exists out. eexists. split; [exact Hout |].
  exact (fetch_sized_by_operand demo_platform _ _ _ _ _ Hout).
Defined.

(** C5, the claim as stated fails: with a primary input of shape
    [(128, 4096)] and an output tensor of shape [(256, 4096)] the call
    returns, and the copy into the output tensor moves the 1048576 bytes
    of the input's shape, not the 2097152 bytes of the output's. *)
Lemma fetch_ignores_output_shape :
  ∃ (out : list Tensor) (s' : state),
    execute demo_platform [demo_activation; demo_weights]
      [tensor_of (fun _ => x00) [256; 4096]] demo_ready = (inr out, s') ∧
    last (device_trace (proc s')) = Some (ev_fetch_read BoC 1048576) ∧
    1048576 ≠ 256 * 4096 * sizeof_OutT.
Proof.
  destruct (run_returned
              (execute demo_platform [demo_activation; demo_weights]
                 [tensor_of (fun _ => x00) [256; 4096]] demo_ready))
    as [out Hout]; [vm_compute; reflexivity |].
  exists out. eexists. split; [exact Hout |]. split.
  - vm_compute. reflexivity.
  - vm_compute. intros H. discriminate H.
Qed.

(** [execute] returns exactly when its needs are met. *)
Lemma execute_returns_iff (P : platform) (input output : list Tensor) (s : state) :
  returned (execute P input output s).1 = true ↔ can_execute P input output (this s).
Proof.
  split.
  - unfold can_execute. run_execute s.
    all: try (cbn [fst returned]; intros Hr; discriminate Hr).
    all: intros _.
    all: match goal with
         | E : extract_MK ?t = inr ?mk |- _ =>
             destruct (extract_MK_inr _ _ E) as (M & K & Hshape & ->)
         end.
    all: rewrite Hshape in *; rewrite running_product_pair in *.
    all: cbn [lookup list_lookup] in *; simplify_eq.
    all: eexists _, _, _, _, _, _, _, _, _, _.
    all: repeat (split; [first [reflexivity | eassumption
                               | by apply shape_listed_elem_of
                               | by apply Z.leb_le | by eauto ] |]).
    all: eauto.
  - intros (in0 & in1 & out0 & table & M & K & a & b & c & ctx & Hin0 & Hin1 & Hout0
            & Htable & Hshape & Hlisted & Ha & Hna & Hb & Hnb & Hc & Hnc & Hctx
            & [persistent Hkey] & Hblob).
    apply shape_listed_elem_of in Hlisted.
    apply Z.leb_le in Hna, Hnb, Hnc.
    pose proof (extract_MK_rank2 _ _ _ Hshape) as Hmk.
    rewrite <- (running_product_pair M K), <- Hshape in Hna, Hnc.
    assert (Hm : shape in0 !! 0%nat = Some M) by (rewrite Hshape; reflexivity).
    assert (Hk : shape in0 !! 1%nat = Some K) by (rewrite Hshape; reflexivity).
    split_state s.
    cbn [this proc default_shapes_ txn_fname_prefix_ a_bo_ b_bo_ c_bo_ xrt_ctx_
         operand_dtype_size_ instr_reg_] in *.
    destruct o_reg as [reg_ctx reg_keys reg_params reg_loaded].
    cbn [instr_keys loaded] in *.
    subst. destruct a as [a_size a_addr a_bytes], b as [b_size b_addr b_bytes],
      c as [c_size c_addr c_bytes].
    cbn [bo_size] in *.
    open_execute.
    destruct Hblob as [[blob Hblob]|[bytes Hbytes]].
    + repeat run1. reflexivity.
    + repeat run1; reflexivity.
Qed.

Lemma lookup_failure_run (P : platform) (input output : list Tensor)
    (s s' : state) (key : string) :
  execute P input output s = (inl (lookup_error key), s') →
  ∃ (in0 in1 : Tensor) (a b : xrt_bo),
    input !! 0%nat = Some in0 ∧ input !! 1%nat = Some in1 ∧
    device_trace (proc s') =
      device_trace (proc s) ++
        [ev_stage_write BoA
           (to_size_t
              (running_product_with_skips (shape in0) [] * operand_dtype_size_ (this s)));
         ev_sync_to_device BoA;
         ev_stage_write BoB
           (to_size_t
              (running_product_with_skips (shape in1) [] * operand_dtype_size_ (this s)));
         ev_sync_to_device BoB] ∧
    a_bo_ (this s') = Some a ∧
    (∀ i : Z,
       0 ≤ i < to_size_t (running_product_with_skips (shape in0) []
                          * operand_dtype_size_ (this s)) →
       bo_bytes a i = data in0 i) ∧
    b_bo_ (this s') = Some b ∧
    (∀ i : Z,
       0 ≤ i < to_size_t (running_product_with_skips (shape in1) []
                          * operand_dtype_size_ (this s)) →
       bo_bytes b i = data in1 i) ∧
    (∀ input' output' : list Tensor,
       can_execute P input' output' (this s) → can_execute P input' output' (this s')).
Proof.
  run_execute s.
  all: intros;
    try match goal with
        | E : extract_MK _ = inl ?e |- _ =>
            pose proof (extract_MK_inl _ _ E); subst e
        end;
    simplify_eq.
  all: eexists _, _, _, _.
  all: split; [reflexivity |]; split; [reflexivity |].
  all: split; [rewrite <- !app_assoc; reflexivity |].
  all: split; [reflexivity |].
  all: split; [intros i Hi; apply (memcpy_prefix _ _ _ _ Hi) |].
  all: split; [reflexivity |].
  all: split; [intros i Hi; apply (memcpy_prefix _ _ _ _ Hi) |].
  all: intros input' output'.
  all: unfold can_execute; state_simpl.
  all: intros (in0' & in1' & out0' & table' & M & K & a' & b' & c' & ctx' & Hin0 & Hin1
               & Hout0 & Htable & Hshape & Hlisted & Ha & Hna & Hb & Hnb & Hc & Hnc
               & Hctx & Hkey & Hblob).
  all: simplify_eq.
  all: eexists _, _, _, _, _, _, _, _, _, _.
  all: repeat (split; [first [reflexivity | eassumption] |]).
  all: assumption.
Qed.

(** C9. When the instruction-key lookup of a call of [execute] fails,
    the operations the call added to the device trace are exactly the
    staging write and the host-to-device synchronisation of input A
    followed by those of input B, each write of the byte count of the
    tensor's shape as a [size_t] product: both inputs were staged and
    synchronised first, and no kernel was launched. The staging buffers
    keep the bytes the call staged. The operator remains usable: every
    call that would have returned before the failed one still returns
    after it. *)
Theorem lookup_failure_after_staging (P : platform) (input output : list Tensor)
    (s s' : state) (key : string) :
  execute P input output s = (inl (lookup_error key), s') →
  ∃ (in0 in1 : Tensor) (a b : xrt_bo),
    input !! 0%nat = Some in0 ∧ input !! 1%nat = Some in1 ∧
    device_trace (proc s') =
      device_trace (proc s) ++
        [ev_stage_write BoA
           (to_size_t
              (running_product_with_skips (shape in0) [] * operand_dtype_size_ (this s)));
         ev_sync_to_device BoA;
         ev_stage_write BoB
           (to_size_t
              (running_product_with_skips (shape in1) [] * operand_dtype_size_ (this s)));
         ev_sync_to_device BoB] ∧
    a_bo_ (this s') = Some a ∧
    (∀ i : Z,
       0 ≤ i < to_size_t (running_product_with_skips (shape in0) []
                          * operand_dtype_size_ (this s)) →
       bo_bytes a i = data in0 i) ∧
    b_bo_ (this s') = Some b ∧
    (∀ i : Z,
       0 ≤ i < to_size_t (running_product_with_skips (shape in1) []
                          * operand_dtype_size_ (this s)) →
       bo_bytes b i = data in1 i) ∧
    (∀ input' output' : list Tensor,
       returned (execute P input' output' s).1 = true →
       returned (execute P input' output' s').1 = true).
Proof.
  intros H.
  destruct (lookup_failure_run P input output s s' key H)
    as (in0 & in1 & a & b & Hin0 & Hin1 & Htrace & Ha & Hbytes_a & Hb & Hbytes_b & Husable).
  exists in0, in1, a, b. repeat (split; [assumption |]).
  intros input' output'. rewrite !execute_returns_iff. apply Husable.
Qed.

Lemma lookup_failure_after_staging_witness :
  (execute demo_platform [tensor_of (fun _ => x01) [256; 4096]; demo_weights]
     [demo_result] demo_ready).1
    = inl (lookup_error "mladfrmsnorm_rmsnorm_a16_256_4096") ∧
  returned
    (execute demo_platform [demo_activation; demo_weights] [demo_result]
       (execute demo_platform [tensor_of (fun _ => x01) [256; 4096]; demo_weights]
          [demo_result] demo_ready).2).1 = true.
Proof.
  assert (Hfail :
    (execute demo_platform [tensor_of (fun _ => x01) [256; 4096]; demo_weights]
       [demo_result] demo_ready).1
      = inl (lookup_error "mladfrmsnorm_rmsnorm_a16_256_4096"))
    by (vm_compute; reflexivity).
  split; [exact Hfail |].
  destruct (lookup_failure_after_staging demo_platform _ _ demo_ready _ _
              (run_eq _ _ Hfail))
    as (in0 & in1 & a & b & _ & _ & _ & _ & _ & _ & _ & Husable).
  apply Husable. vm_compute. reflexivity.
Defined.

(** ** Staging buffers *)

(** C3 (amended). The staging buffers are sized by
    [initialize_const_params], run on the constructed operator: the
    input-A and the output buffer get the largest rows times columns of
    the supported-shape table times the element size, the weight buffer
    the largest column count times the element size. A call of
    [execute], whatever its inputs and its outcome, leaves the three
    sizes as they are and allocates no buffer object. *)
Theorem staging_buffer_sizes (P : platform) (p p' : process) (o : rms_norm) :
  rms_norm_new P "bfloat16" true p = (inr o, p') →
  (∃ (s' : state) (a b c : xrt_bo),
     initialize_const_params P {| this := o; proc := p' |} = (inr tt, s') ∧
     a_bo_ (this s') = Some a ∧ b_bo_ (this s') = Some b ∧ c_bo_ (this s') = Some c ∧
     default_shapes_ (this s') !! txn_fname_prefix_ (this s') = Some rmsnorm_a16_shapes ∧
     (∀ M K : Z, (M, K) ∈ rmsnorm_a16_shapes →
        M * K * sizeof_LhsT ≤ bo_size a ∧ K * sizeof_LhsT ≤ bo_size b) ∧
     (∃ M K : Z, (M, K) ∈ rmsnorm_a16_shapes ∧ bo_size a = M * K * sizeof_LhsT) ∧
     (∃ M K : Z, (M, K) ∈ rmsnorm_a16_shapes ∧ bo_size b = K * sizeof_LhsT) ∧
     bo_size c = bo_size a) ∧
  (∀ (input output : list Tensor) (s : state),
     bo_sizes (this (execute P input output s).2) = bo_sizes (this s) ∧
     bo_allocs (proc (execute P input output s).2) = bo_allocs (proc s)).
Proof.
  intros Hnew. split.
  - destruct (rms_norm_new_accepts P true p)
      as (o0 & p0 & Hnew0 & Htable & Hprefix & Hsize & _ & _ & _ & _ & _ & Hload).
    rewrite Hnew0 in Hnew. injection Hnew as <- <-.
    destruct (Hload eq_refl) as (ctx & Hctx & _ & _).
    destruct o0 as [o_header o_shapes o_id o_debug o_dtype o_dtype_size o_prefix
                    o_reg o_ctx o_a o_b o_c o_operand_size o_wts_size
                    o_a_copy o_a_sync o_b_copy o_b_sync o_c_copy o_c_sync
                    o_run_time o_runs].
    destruct p0 as [p_count p_logger_flag p_reg_flag p_contexts p_log p_tracelog
                    p_trace p_now p_allocs].
    cbn [default_shapes_ txn_fname_prefix_ operand_dtype_size_ xrt_ctx_] in *.
    subst.
    unfold initialize_const_params, default_shapes_subscript, xrt_bo_new,
      deref_xrt_ctx, emit.
    repeat run1.
    eexists _, _, _, _. split; [reflexivity |].
    state_simpl.
    do 3 (split; [reflexivity |]). split; [assumption |].
    split; [| split; [| split]].
    + intros M K HMK. unfold rmsnorm_a16_shapes in HMK.
      repeat (apply elem_of_cons in HMK as [[= -> ->]|HMK];
              [split; vm_compute; intros Hgt; discriminate Hgt |]).
      inversion HMK.
    + exists 2048, 4096. split; [left | vm_compute; reflexivity].
    + exists 2048, 4096. split; [left | vm_compute; reflexivity].
    + reflexivity.
  - intros input output s. run_execute s.
    all: split; reflexivity.
Qed.

Lemma staging_buffer_sizes_witness :
  bo_sizes (this demo_ready) = (Some 16777216, Some 8192, Some 16777216) ∧
  bo_sizes (this demo_after_run) = bo_sizes (this demo_ready).
Proof.
  assert (Hnew : rms_norm_new demo_platform "bfloat16" true process_start
                   = (inr (this demo_constructed), proc demo_constructed))
    by (vm_compute; reflexivity).
  destruct (staging_buffer_sizes demo_platform _ _ _ Hnew) as [_ Hkeep].
  split; [vm_compute; reflexivity |].
  apply (Hkeep [demo_activation; demo_weights] [demo_result] demo_ready).
Defined.

(** C3, the claim as stated fails: the constructor allocates no staging
    buffer, the three buffer objects are still the default-constructed
    ones when it returns; and the sizing is not done once only, a second
    call of [initialize_const_params] allocates three buffers again. *)
Lemma constructor_allocates_no_buffer :
  bo_sizes (this demo_constructed) = (None, None, None) ∧
  bo_allocs (proc demo_constructed) = 0%nat ∧
  bo_allocs (proc demo_ready) = 3%nat ∧
  bo_allocs (proc (initialize_const_params demo_platform demo_ready).2) = 6%nat.
Proof. repeat split; vm_compute; reflexivity. Qed.

(** ** Buffer requirements *)





(** ** Instruction keys *)

Lemma pretty_N_go_underscore_free (x : N) (s : string) :
  underscore_free s → underscore_free (pretty_N_go x s).
Proof.
  revert s. induction (N.lt_wf_0 x) as [x _ IH]; intros s Hs.
  assert (x = 0 ∨ 0 < x)%N as [->|Hpos] by lia.
  - by rewrite pretty_N_go_0.
  - rewrite pretty_N_go_step by done. apply IH.
    { by apply N.div_lt. }
    split; [| exact Hs]. unfold pretty_N_char. by repeat case_match.
Qed.

(** The decimal numeral of an integer holds no underscore. *)
Lemma pretty_Z_underscore_free (z : Z) : underscore_free (pretty z).
Proof.
  assert (HN : ∀ n : N, underscore_free (pretty n)).
  { intros n. unfold pretty, pretty_N. case_decide.
    - split; [discriminate | exact I].
    - by apply pretty_N_go_underscore_free. }
  destruct z as [|p|p]; unfold pretty, pretty_Z.
  - split; [discriminate | exact I].
  - apply HN.
  - split; [discriminate | apply HN].
Qed.

Lemma split_at_underscore (a a' b b' : string) :
  underscore_free a → underscore_free a' →
  a +:+ String "_" b = a' +:+ String "_" b' → a = a' ∧ b = b'.
Proof.
  revert a'. induction a as [|c a IH]; intros [|c' a'] Ha Ha' Heq; simpl in *.
  - by injection Heq as ->.
  - injection Heq as <- _. by destruct Ha' as [Hc _].
  - injection Heq as -> _. by destruct Ha as [Hc _].
  - injection Heq as -> Heq. destruct Ha as [_ Ha], Ha' as [_ Ha'].
    destruct (IH a' Ha Ha' Heq) as [-> ->]. done.
Qed.

Lemma get_instr_key_eq_inv (prefix : string) (m k m' k' : Z) :
  get_instr_key prefix m k = get_instr_key prefix m' k' → m = m' ∧ k = k'.
Proof.
  unfold get_instr_key. intros Heq.
  apply (inj (String.append "mladfrmsnorm_")) in Heq.
  apply (inj (String.append prefix)) in Heq.
  apply (inj (String.append "_")) in Heq.
  apply split_at_underscore in Heq as [Hm Hk];
    [| apply pretty_Z_underscore_free | apply pretty_Z_underscore_free].
  split; by apply (inj pretty).
Qed.

(** X1. For one prefix, [get_instr_key] gives two shapes the same key
    only when the shapes are equal: the key determines the row and the
    column count it was built from. *)
Theorem get_instr_key_inj (prefix : string) (m k m' k' : Z) :
  get_instr_key prefix m k = get_instr_key prefix m' k' ↔ m = m' ∧ k = k'.
Proof.
  split; [apply get_instr_key_eq_inv | by intros [-> ->]].
Qed.

Lemma find_key_shapes (prefix : string) (M K : Z) (table : list (Z * Z)) :
  find_key (get_instr_key prefix M K)
    ((λ tensor : Z * Z, (get_instr_key prefix tensor.1 tensor.2, false)) <$> table)
  = if bool_decide ((M, K) ∈ table) then Some false else None.
Proof.
  induction table as [|[M' K'] rest IH]; cbn [fmap list_fmap find_key fst snd].
  - rewrite bool_decide_eq_false_2 by apply not_elem_of_nil. reflexivity.
  - destruct (decide _) as [Heq|Hne].
    + apply get_instr_key_eq_inv in Heq as [-> ->].
      rewrite bool_decide_eq_true_2 by left. reflexivity.
    + rewrite IH. apply (f_equal (λ b : bool, if b then Some false else None)).
      apply bool_decide_ext. rewrite elem_of_cons. split; [by right |].
      intros [[= -> ->]|H]; [by destruct Hne | exact H].
Qed.

(** X2. [setup_instr_registry], run on an operator whose supported-shape
    table is found under its variant key, changes the registry of the
    operator and nothing else, neither another member nor the process:
    the registry gets the device context of the operator, one
    instruction key per table entry appended in table order and flagged
    non-persistent, and no layer parameter; what it had loaded stays.
    On a registry that held no key before, the key of a shape is
    registered afterwards exactly when the shape is in the table. *)
Theorem setup_instr_registry_keys (s : state) (table : list (Z * Z)) :
  default_shapes_ (this s) !! txn_fname_prefix_ (this s) = Some table →
  setup_instr_registry s =
    (inr tt,
     {| this :=
          set_instr_reg_
            {| hw_ctx := xrt_ctx_ (this s);
               instr_keys :=
                 instr_keys (instr_reg_ (this s)) ++
                 ((λ tensor : Z * Z,
                     (get_instr_key (txn_fname_prefix_ (this s)) tensor.1 tensor.2,
                      false)) <$> table);
               layer_param_keys := layer_param_keys (instr_reg_ (this s));
               loaded := loaded (instr_reg_ (this s)) |}
            (this s);
        proc := proc s |}) ∧
  (instr_keys (instr_reg_ (this s)) = [] →
   ∀ M K : Z,
     registered (get_instr_key (txn_fname_prefix_ (this s)) M K)
       (instr_reg_ (this (setup_instr_registry s).2))
     = if bool_decide ((M, K) ∈ table) then Some false else None).
Proof.
  intros Htable. split_state s.
  cbn [this proc default_shapes_ txn_fname_prefix_] in Htable.
  destruct o_reg as [reg_ctx reg_keys reg_params reg_loaded].
  assert (Hrun :
    setup_instr_registry
      {| this :=
           {| txnbin_operand_header := o_header; default_shapes_ := o_shapes;
              rms_norm_id_ := o_id; debug_ := o_debug; operand_dtype_ := o_dtype;
              operand_dtype_size_ := o_dtype_size; txn_fname_prefix_ := o_prefix;
              instr_reg_ :=
                {| hw_ctx := reg_ctx; instr_keys := reg_keys;
                   layer_param_keys := reg_params; loaded := reg_loaded |};
              xrt_ctx_ := o_ctx; a_bo_ := o_a; b_bo_ := o_b; c_bo_ := o_c;
              operand_size_in_bytes_ := o_operand_size;
              wts_size_in_bytes_ := o_wts_size; a_copy_time_ := o_a_copy;
              a_sync_time_ := o_a_sync; b_copy_time_ := o_b_copy;
              b_sync_time_ := o_b_sync; c_copy_time_ := o_c_copy;
              c_sync_time_ := o_c_sync; run_aie_time_ := o_run_time;
              num_run_aie_ := o_runs |};
         proc :=
           {| rms_norm_count := p_count; logger_flag_ := p_logger_flag;
              instr_reg_flag_ := p_reg_flag; xrt_contexts := p_contexts;
              log_sink := p_log; trace_sink := p_tracelog; device_trace := p_trace;
              time_ns := p_now; bo_allocs := p_allocs |} |}
    = (inr tt,
       {| this :=
            {| txnbin_operand_header := o_header; default_shapes_ := o_shapes;
               rms_norm_id_ := o_id; debug_ := o_debug; operand_dtype_ := o_dtype;
               operand_dtype_size_ := o_dtype_size; txn_fname_prefix_ := o_prefix;
               instr_reg_ :=
                 {| hw_ctx := o_ctx;
                    instr_keys :=
                      reg_keys ++
                      ((λ tensor : Z * Z,
                          (get_instr_key o_prefix tensor.1 tensor.2, false)) <$> table);
                    layer_param_keys := reg_params; loaded := reg_loaded |};
               xrt_ctx_ := o_ctx; a_bo_ := o_a; b_bo_ := o_b; c_bo_ := o_c;
               operand_size_in_bytes_ := o_operand_size;
               wts_size_in_bytes_ := o_wts_size; a_copy_time_ := o_a_copy;
               a_sync_time_ := o_a_sync; b_copy_time_ := o_b_copy;
               b_sync_time_ := o_b_sync; c_copy_time_ := o_c_copy;
               c_sync_time_ := o_c_sync; run_aie_time_ := o_run_time;
               num_run_aie_ := o_runs |};
          proc :=
            {| rms_norm_count := p_count; logger_flag_ := p_logger_flag;
               instr_reg_flag_ := p_reg_flag; xrt_contexts := p_contexts;
               log_sink := p_log; trace_sink := p_tracelog; device_trace := p_trace;
               time_ns := p_now; bo_allocs := p_allocs |} |})).
  { unfold setup_instr_registry, find_shapes, setup_hw_ctx, add_instructions,
      add_layer_params.
    repeat run1. rewrite app_nil_r. reflexivity. }
  split; [exact Hrun |].
  rewrite Hrun. unfold registered. cbn [this proc snd instr_reg_ instr_keys txn_fname_prefix_].
  intros -> M K. apply find_key_shapes.
Qed.

Lemma setup_instr_registry_keys_witness :
  instr_keys (instr_reg_ (this (setup_instr_registry demo_constructed).2))
    = rmsnorm_a16_keys ++ rmsnorm_a16_keys ∧
  a_bo_ (this (setup_instr_registry demo_constructed).2) = a_bo_ (this demo_constructed).
Proof.
  destruct (setup_instr_registry_keys demo_constructed rmsnorm_a16_shapes) as [Hrun _].
  - vm_compute. reflexivity.
  - rewrite Hrun. split; vm_compute; reflexivity.
Defined.

(** ** Construction and initialisation *)

(** A run of the constructor body on the accepted dtype tag, down to
    the values it leaves. *)
Ltac run_constructor :=
  unfold rms_norm_new, rms_norm_body;
  destruct (decide ("bfloat16" ≠ "bfloat16")) as [Hne|_]; [by destruct Hne |];
  unfold_comp; proj_simpl;
  rewrite (default_shapes_push_back_run _ _ _ []) by (proj_simpl; apply lookup_insert_eq);
  rewrite (default_shapes_push_back_run _ _ _ ([] ++ [(2048, 4096)]))
    by (proj_simpl; apply lookup_insert_eq);
  rewrite (default_shapes_push_back_run _ _ _ (([] ++ [(2048, 4096)]) ++ [(1024, 4096)]))
    by (proj_simpl; apply lookup_insert_eq);
  rewrite (default_shapes_push_back_run _ _ _
             ((([] ++ [(2048, 4096)]) ++ [(1024, 4096)]) ++ [(512, 4096)]))
    by (proj_simpl; apply lookup_insert_eq);
  rewrite (default_shapes_push_back_run _ _ _
             (((([] ++ [(2048, 4096)]) ++ [(1024, 4096)]) ++ [(512, 4096)])
              ++ [(256, 4096)]))
    by (proj_simpl; apply lookup_insert_eq);
  proj_simpl; unfold map_at; rewrite lookup_singleton_eq;
  change ("rmsnorm_" +:+ "a16") with "rmsnorm_a16";
  match goal with
  | |- context [set_default_shapes_ ?t] =>
      let table := fresh "table" in
      set (table := t);
      assert (table !! "rmsnorm_a16" = Some rmsnorm_a16_shapes)
        by (subst table; apply lookup_insert_eq);
      clearbody table
  end;
  unfold reset_timers, call_once, RYZENAI_LOG_INFO, RYZENAI_LOG_TRACE,
    setup_instr_registry,
    xrt_context_get_instance, setup_hw_ctx, add_instructions, add_layer_params,
    find_shapes, emit;
  unfold_comp;
  repeat step.

Lemma rms_norm_new_dtype (P : platform) (operand_dtype : string) (load_xrt : bool)
    (p p' : process) (o : rms_norm) :
  rms_norm_new P operand_dtype load_xrt p = (inr o, p') → operand_dtype = "bfloat16".
Proof.
  unfold rms_norm_new, rms_norm_body.
  destruct (decide (operand_dtype ≠ "bfloat16")) as [Hne|Heq]; [discriminate |].
  intros _. by apply dec_stable in Heq.
Qed.

Lemma rms_norm_new_ids (P : platform) (load_xrt : bool) (p p' : process) (o : rms_norm) :
  rms_norm_new P "bfloat16" load_xrt p = (inr o, p') →
  rms_norm_id_ o = rms_norm_count p ∧
  rms_norm_count p' = (rms_norm_count p + 1) mod 2 ^ 64 ∧
  logger_flag_ p' = true ∧
  log_sink p' = log_sink p ++ (if logger_flag_ p then [] else [log_header]) ∧
  trace_sink p' =
    trace_sink p ++ [log_ctor (rms_norm_count p) (getXCLBinName P) "bfloat16"].
Proof.
  destruct p as [p_count p_logger_flag p_reg_flag p_contexts p_log p_tracelog p_trace p_now p_allocs].
  destruct load_xrt.
  all: run_constructor.
  all: intros [= <- <-]; proj_simpl.
  all: rewrite ?app_nil_r; repeat split; reflexivity.
Qed.

(** X3. Two operators constructed one after the other in a process:
    each takes the value of the static counter [rms_norm_count] as its
    [rms_norm_id_] and advances the counter by one, modulo 2^64, so the
    identifiers are consecutive. The metrics sink receives the header
    line through [RYZENAI_LOG_INFO] once, from the first construction
    and only if [logger_flag_] was not set yet, and nothing else; each
    construction hands [RYZENAI_LOG_TRACE] one line for the trace log,
    carrying the identifier, the xclbin name and the dtype tag. *)
Theorem constructor_ids_and_log (P : platform) (dtype1 dtype2 : string)
    (load1 load2 : bool) (p p1 p2 : process) (o1 o2 : rms_norm) :
  rms_norm_new P dtype1 load1 p = (inr o1, p1) →
  rms_norm_new P dtype2 load2 p1 = (inr o2, p2) →
  rms_norm_id_ o1 = rms_norm_count p ∧
  rms_norm_id_ o2 = (rms_norm_count p + 1) mod 2 ^ 64 ∧
  rms_norm_count p2 = (rms_norm_id_ o2 + 1) mod 2 ^ 64 ∧
  logger_flag_ p2 = true ∧
  log_sink p2 = log_sink p ++ (if logger_flag_ p then [] else [log_header]) ∧
  trace_sink p2 =
    trace_sink p ++
    [log_ctor (rms_norm_id_ o1) (getXCLBinName P) "bfloat16";
     log_ctor (rms_norm_id_ o2) (getXCLBinName P) "bfloat16"].
Proof.
  intros H1 H2.
  pose proof (rms_norm_new_dtype _ _ _ _ _ _ H1) as ->.
  pose proof (rms_norm_new_dtype _ _ _ _ _ _ H2) as ->.
  destruct (rms_norm_new_ids _ _ _ _ _ H1) as (Hid1 & Hcount1 & Hflag1 & Hlog1 & Htrace1).
  destruct (rms_norm_new_ids _ _ _ _ _ H2) as (Hid2 & Hcount2 & Hflag2 & Hlog2 & Htrace2).
  rewrite Hlog2, Htrace2, Hflag1, Hlog1, Htrace1, Hid2, Hid1, Hcount2, Hcount1.
  rewrite app_nil_r, <- app_assoc. repeat split. exact Hflag2.
Qed.

Lemma constructor_ids_and_log_witness :
  ∃ (o2 : rms_norm) (p2 : process),
    rms_norm_new demo_platform "bfloat16" false (proc demo_constructed) = (inr o2, p2) ∧
    rms_norm_id_ (this demo_constructed) = 0 ∧ rms_norm_id_ o2 = 1 ∧
    rms_norm_count p2 = 2 ∧ log_sink p2 = [log_header].
Proof.
  assert (H1 : rms_norm_new demo_platform "bfloat16" true process_start
                 = (inr (this demo_constructed), proc demo_constructed))
    by (vm_compute; reflexivity).
  destruct (rms_norm_new_accepts demo_platform false (proc demo_constructed))
    as (o2 & p2 & H2 & _).
  exists o2, p2. split; [exact H2 |].
  destruct (constructor_ids_and_log demo_platform _ _ _ _ _ _ _ _ _ H1 H2)
    as (Hid1 & Hid2 & Hcount & _ & Hlog & _).
  rewrite Hcount, Hid2, Hid1, Hlog. repeat split; vm_compute; reflexivity.
Defined.

(** X4. An operator constructed with [load_xrt = false] has no device
    context, the registry it was default constructed with and no staging
    buffer; its construction leaves the device untouched: nothing is
    added to the device trace, no context is opened, no buffer object
    allocated, and [instr_reg_flag_] keeps its value. A call of
    [execute] on the operator as constructed cannot return. *)
Theorem constructor_without_xrt (P : platform) (operand_dtype : string)
    (p p' : process) (o : rms_norm) :
  rms_norm_new P operand_dtype false p = (inr o, p') →
  xrt_ctx_ o = None ∧
  instr_reg_ o = instruction_registry_default ∧
  bo_sizes o = (None, None, None) ∧
  device_trace p' = device_trace p ∧
  xrt_contexts p' = xrt_contexts p ∧
  instr_reg_flag_ p' = instr_reg_flag_ p ∧
  bo_allocs p' = bo_allocs p ∧
  ∀ (input output : list Tensor) (q : process),
    returned (execute P input output {| this := o; proc := q |}).1 = false.
Proof.
  intros Hnew. pose proof (rms_norm_new_dtype _ _ _ _ _ _ Hnew) as ->.
  revert Hnew.
  destruct p as [p_count p_logger_flag p_reg_flag p_contexts p_log p_tracelog p_trace p_now p_allocs].
  run_constructor.
  all: intros [= <- <-]; proj_simpl.
  all: do 7 (split; [reflexivity |]).
  all: intros input output q; apply not_true_is_false; rewrite execute_returns_iff.
  all: unfold can_execute; proj_simpl.
  all: intros (? & ? & ? & ? & ? & ? & ? & ? & ? & ? & _ & _ & _ & _ & _ & _ & Ha & _);
    discriminate Ha.
Qed.

Lemma constructor_without_xrt_witness :
  ∃ (o : rms_norm) (p' : process),
    rms_norm_new demo_platform "bfloat16" false process_start = (inr o, p') ∧
    xrt_ctx_ o = None ∧ device_trace p' = [].
Proof.
  destruct (rms_norm_new_accepts demo_platform false process_start)
    as (o & p' & Hnew & _).
  exists o, p'. split; [exact Hnew |].
  destruct (constructor_without_xrt demo_platform _ _ _ _ Hnew)
    as (Hctx & _ & _ & Htrace & _).
  split; [exact Hctx | exact Htrace].
Defined.

(** X5. On a constructed operator, whichever way it was constructed,
    [isSupportedShape] returns [true] exactly for the rank-2 tensors
    whose extents, converted to [int], are 4096 columns and 2048, 1024,
    512, 256 or 128 rows, the five shapes the constructor lists under
    the operator's variant key; for extents that fit [int] these are the
    extents themselves. *)
Theorem constructed_supported_shapes (P : platform) (operand_dtype : string)
    (load_xrt : bool) (p p' q : process) (o : rms_norm) (operand : Tensor) :
  rms_norm_new P operand_dtype load_xrt p = (inr o, p') →
  ((isSupportedShape operand {| this := o; proc := q |}).1 = inr true ↔
   ∃ M K : Z, shape operand = [M; K] ∧
              to_int M ∈ [2048; 1024; 512; 256; 128] ∧ to_int K = 4096) ∧
  (∀ M K : Z,
     shape operand = [M; K] → - 2 ^ 31 ≤ M < 2 ^ 31 → - 2 ^ 31 ≤ K < 2 ^ 31 →
     (isSupportedShape operand {| this := o; proc := q |}).1 = inr true ↔
     M ∈ [2048; 1024; 512; 256; 128] ∧ K = 4096).
Proof.
  intros Hnew. pose proof (rms_norm_new_dtype _ _ _ _ _ _ Hnew) as ->.
  destruct (rms_norm_new_accepts P load_xrt p)
    as (o0 & p0 & Hnew0 & Htable & Hprefix & _).
  rewrite Hnew0 in Hnew. injection Hnew as <- <-.
  assert (Hiff : (isSupportedShape operand {| this := o0; proc := q |}).1 = inr true ↔
                 ∃ M K : Z, shape operand = [M; K] ∧
                            to_int M ∈ [2048; 1024; 512; 256; 128] ∧ to_int K = 4096).
  { unfold isSupportedShape, find_shapes. unfold_comp. cbn [this].
    rewrite Hprefix, Htable.
    destruct (extract_MK operand) as [e|mk] eqn:Hmk; cbn [fst].
    - split; [discriminate |].
      intros (M & K & Hshape & _). rewrite (extract_MK_rank2 _ _ _ Hshape) in Hmk.
      discriminate Hmk.
    - destruct (extract_MK_inr _ _ Hmk) as (M & K & Hshape & ->).
      split.
      + intros Hl.
        assert (Hlisted : shape_listed (to_int M, to_int K) rmsnorm_a16_shapes = true)
          by congruence.
        apply shape_listed_elem_of in Hlisted.
        unfold rmsnorm_a16_shapes in Hlisted.
        exists M, K. split; [exact Hshape |]. rewrite !elem_of_cons in *.
        destruct Hlisted as [H|[H|[H|[H|[H|H]]]]]; [.. | inversion H];
          injection H as -> ->; split; auto 10.
      + intros (M' & K' & Hshape' & HM & HK).
        rewrite Hshape in Hshape'. injection Hshape' as <- <-.
        f_equal. apply shape_listed_elem_of.
        unfold rmsnorm_a16_shapes. rewrite HK. rewrite !elem_of_cons in *.
        destruct HM as [->|[->|[->|[->|[->|H]]]]]; [auto 10 .. | inversion H]. }
  split; [exact Hiff |].
  intros M K Hshape HM HK. rewrite Hiff. split.
  - intros (M' & K' & Hshape' & HM' & HK').
    rewrite Hshape in Hshape'. injection Hshape' as <- <-.
    by rewrite (to_int_fits M HM) in HM'; rewrite (to_int_fits K HK) in HK'.
  - intros [HM' HK']. exists M, K.
    by rewrite (to_int_fits M HM), (to_int_fits K HK).
Qed.

Lemma constructed_supported_shapes_witness :
  (isSupportedShape demo_activation
     {| this := this demo_constructed; proc := proc demo_ready |}).1 = inr true ↔
  ∃ M K : Z, shape demo_activation = [M; K] ∧
             to_int M ∈ [2048; 1024; 512; 256; 128] ∧ to_int K = 4096.
Proof.
  apply (constructed_supported_shapes demo_platform "bfloat16" true process_start
           (proc demo_constructed) (proc demo_ready) (this demo_constructed)
           demo_activation).
  vm_compute. reflexivity.
Defined.



(** X7. The first operator of a process, constructed with XRT loaded
    while [instr_reg_flag_] is unset and then initialised: a call of
    [execute] on it returns exactly when there are two input tensors and
    an output tensor, the extents of the primary input, converted to
    [int], are one of the five supported shapes, the byte count of the
    primary input, a product in [size_t], is at most the 16777216 bytes
    of buffers A and C, the byte count of the weight tensor at most the
    8192 bytes of buffer B, and the artifact store has the instruction
    stream of the shape's key. In particular it returns for a primary
    input that has a supported shape, with a weight tensor of at most
    4096 elements, when the artifact exists. *)
Theorem first_operator_executes (P : platform) (p p1 : process) (o : rms_norm) :
  instr_reg_flag_ p = false →
  rms_norm_new P "bfloat16" true p = (inr o, p1) →
  ∃ s : state,
    initialize_const_params P {| this := o; proc := p1 |} = (inr tt, s) ∧
    (∀ input output : list Tensor,
       returned (execute P input output s).1 = true ↔
       ∃ (in0 in1 out0 : Tensor) (M K : Z),
         input !! 0%nat = Some in0 ∧ input !! 1%nat = Some in1 ∧
         output !! 0%nat = Some out0 ∧
         shape in0 = [M; K] ∧ (to_int M, to_int K) ∈ rmsnorm_a16_shapes ∧
         to_size_t (M * K * sizeof_LhsT) ≤ 16777216 ∧
         to_size_t (running_product_with_skips (shape in1) [] * sizeof_LhsT) ≤ 8192 ∧
         is_Some (get_txn_str P (get_instr_key "rmsnorm_a16" (to_int M) (to_int K)))) ∧
    (∀ (input output : list Tensor) (in0 in1 out0 : Tensor) (M K : Z),
       input !! 0%nat = Some in0 → input !! 1%nat = Some in1 →
       output !! 0%nat = Some out0 →
       shape in0 = [M; K] → (M, K) ∈ rmsnorm_a16_shapes →
       0 ≤ running_product_with_skips (shape in1) [] ≤ 4096 →
       is_Some (get_txn_str P (get_instr_key "rmsnorm_a16" M K)) →
       returned (execute P input output s).1 = true).
Proof.
  intros Hflag Hnew.
  destruct (rms_norm_new_accepts P true p)
    as (o0 & p0 & Hnew0 & Htable & Hprefix & Hsize & _ & _ & _ & _ & _ & Hload).
  rewrite Hnew0 in Hnew. injection Hnew as <- <-.
  destruct (Hload eq_refl) as (ctx & Hctx & _ & Hreg). rewrite Hflag in Hreg.
  destruct o0 as [o_header o_shapes o_id o_debug o_dtype o_dtype_size o_prefix
                  o_reg o_ctx o_a o_b o_c o_operand_size o_wts_size
                  o_a_copy o_a_sync o_b_copy o_b_sync o_c_copy o_c_sync
                  o_run_time o_runs].
  destruct p0 as [p_count p_logger_flag p_reg_flag p_contexts p_log p_tracelog
                  p_trace p_now p_allocs].
  cbn [default_shapes_ txn_fname_prefix_ operand_dtype_size_ xrt_ctx_ instr_reg_] in *.
  subst.
  eexists. split.
  { unfold initialize_const_params, default_shapes_subscript, xrt_bo_new,
      deref_xrt_ctx, emit.
    repeat run1. reflexivity. }
  match goal with
  | |- (∀ input output, ?lhs ↔ ?rhs) ∧ _ =>
      assert (Hiff : ∀ input output : list Tensor, lhs ↔ rhs)
  end.
  { intros input output. rewrite execute_returns_iff.
    unfold can_execute. state_simpl.
    replace (max_element_count_with_skips (tuple_to_vector <$> rmsnorm_a16_shapes) []
             * sizeof_LhsT) with 16777216 by (vm_compute; reflexivity).
    replace (max_element_count_with_skips (tuple_to_vector <$> rmsnorm_a16_shapes) [0%nat]
             * sizeof_LhsT) with 8192 by (vm_compute; reflexivity).
    split.
    - intros (in0 & in1 & out0 & table & M & K & a & b & c & ctx' & Hin0 & Hin1 & Hout0
              & Htable' & Hshape & Hlisted & Ha & Hna & Hb & Hnb & Hc & Hnc & Hctx
              & Hkey & Hblob).
      simplify_eq. cbn [bo_size] in *.
      exists in0, in1, out0, M, K. do 7 (split; [assumption |]).
      destruct Hblob as [[blob Hblob]|Hblob]; [| exact Hblob].
      rewrite lookup_empty in Hblob. discriminate Hblob.
    - intros (in0 & in1 & out0 & M & K & Hin0 & Hin1 & Hout0 & Hshape & Hlisted & Hna
              & Hnb & Hart).
      eexists in0, in1, out0, rmsnorm_a16_shapes, M, K, _, _, _, _.
      do 6 (split; [first [eassumption | reflexivity] |]).
      split; [reflexivity |]. cbn [bo_size].
      assert (Hkey : is_Some (find_key (get_instr_key "rmsnorm_a16" (to_int M) (to_int K))
                                rmsnorm_a16_keys)).
      { unfold rmsnorm_a16_shapes in Hlisted.
        repeat (apply elem_of_cons in Hlisted as [[= -> ->]|Hlisted];
                [vm_compute; eauto |]).
        inversion Hlisted. }
      split; [exact Hna |]. split; [reflexivity |].
      split; [exact Hnb |]. split; [reflexivity |].
      split; [exact Hna |]. split; [reflexivity |].
      split; [exact Hkey |]. right. exact Hart. }
  split; [exact Hiff |].
  intros input output in0 in1 out0 M K Hin0 Hin1 Hout0 Hshape Hlisted Hw Hart.
  apply Hiff. exists in0, in1, out0, M, K.
  do 4 (split; [assumption |]).
  unfold sizeof_LhsT.
  rewrite (to_size_t_fits (running_product_with_skips (shape in1) [] * 2)) by lia.
  unfold rmsnorm_a16_shapes in Hlisted.
  repeat (apply elem_of_cons in Hlisted as [[= -> ->]|Hlisted];
          [rewrite !to_int_fits by lia;
           split; [unfold rmsnorm_a16_shapes; rewrite !elem_of_cons; auto 10 |];
           split; [vm_compute; intros Hgt; discriminate Hgt |];
           split; [lia | exact Hart] |]).
  inversion Hlisted.
Qed.

Lemma first_operator_executes_witness :
  ∃ s : state,
    initialize_const_params demo_platform
      {| this := this demo_constructed; proc := proc demo_constructed |} = (inr tt, s) ∧
    returned (execute demo_platform [demo_activation; demo_weights] [demo_result] s).1
      = true.
Proof.
  destruct (first_operator_executes demo_platform process_start (proc demo_constructed)
              (this demo_constructed)) as (s & Hinit & _ & Hreturns).
  - reflexivity.
  - vm_compute. reflexivity.
  - exists s. split; [exact Hinit |].
    apply (Hreturns _ _ demo_activation demo_weights demo_result 128 4096);
      try reflexivity.
    + unfold rmsnorm_a16_shapes. rewrite !elem_of_cons. auto 10.
    + vm_compute. split; intros H; discriminate H.
    + vm_compute. eauto.
Defined.
(** ** Execution pipeline: order, data flow and frame *)

Lemma memcpy_outside (dst src : mem) (n i : Z) :
  ¬ (0 ≤ i < n) → memcpy dst src n i = dst i.
Proof.
  intros Hout. unfold memcpy.
  destruct (Z.leb_spec 0 i); [| reflexivity].
  destruct (Z.ltb_spec i n); [lia | reflexivity].
Qed.

(** X8. A call of [execute] that returns has added to the device trace,
    in this order: the staging write and the host-to-device
    synchronisation of input A, those of input B, the load of the
    instruction stream when the registry had not loaded the key yet, one
    kernel run, the device-to-host synchronisation of C and the copy out
    of C. The byte counts are products in [size_t]; the key is built
    from the extents converted to [int]. The kernel is launched with
    opcode 2, the word count of the instruction stream (its byte size
    divided by [sizeof(int)], stored in an [int]) and the device
    addresses of the three staging buffers, each offset by
    [DDR_AIE_ADDR_OFFSET]. *)
Theorem execute_pipeline_order (P : platform) (input output out : list Tensor)
    (s s' : state) :
  execute P input output s = (inr out, s') →
  ∃ (in0 in1 : Tensor) (M K : Z) (a b c : xrt_bo) (blob : instr_blob),
    input !! 0%nat = Some in0 ∧ input !! 1%nat = Some in1 ∧ shape in0 = [M; K] ∧
    a_bo_ (this s) = Some a ∧ b_bo_ (this s) = Some b ∧ c_bo_ (this s) = Some c ∧
    loaded (instr_reg_ (this s'))
      !! get_instr_key (txn_fname_prefix_ (this s)) (to_int M) (to_int K) = Some blob ∧
    device_trace (proc s') =
      device_trace (proc s) ++
      [ev_stage_write BoA (to_size_t (M * K * operand_dtype_size_ (this s)));
       ev_sync_to_device BoA;
       ev_stage_write BoB
         (to_size_t
            (running_product_with_skips (shape in1) [] * operand_dtype_size_ (this s)));
       ev_sync_to_device BoB] ++
      match loaded (instr_reg_ (this s))
              !! get_instr_key (txn_fname_prefix_ (this s)) (to_int M) (to_int K) with
      | Some _ => []
      | None =>
          [ev_instr_load
             (get_instr_key (txn_fname_prefix_ (this s)) (to_int M) (to_int K))]
      end ++
      [ev_kernel_run 2 (to_int (Z.of_nat (length (blob_bytes blob)) / sizeof_int))
         (address a + DDR_AIE_ADDR_OFFSET P)
         (address b + DDR_AIE_ADDR_OFFSET P)
         (address c + DDR_AIE_ADDR_OFFSET P);
       ev_sync_from_device BoC;
       ev_fetch_read BoC (to_size_t (M * K * operand_dtype_size_ (this s)))].
Proof.
  run_execute s.
  all: intros; simplify_eq.
  all: match goal with
       | E : extract_MK ?t = inr ?mk |- _ =>
           destruct (extract_MK_inr _ _ E) as (M & K & Hshape & ->)
       end.
  all: eexists _, _, M, K, _, _, _, _.
  all: split; [reflexivity |]; split; [reflexivity |]; split; [exact Hshape |].
  all: do 3 (split; [reflexivity |]).
  all: rewrite Hshape in *; rewrite ?running_product_pair in *.
  all: cbn [lookup list_lookup] in *; simplify_eq.
  all: split; [first [eassumption | apply lookup_insert_eq] |].
  all: cbn [fst snd] in *.
  all: repeat match goal with
         | E : ?m !! ?k = _ |- context [?m !! ?k] => rewrite E
         end.
  all: rewrite <- ?app_assoc; reflexivity.
Qed.

Lemma execute_pipeline_order_witness :
  ∃ (out : list Tensor) (s' : state),
    execute demo_platform [demo_activation; demo_weights] [demo_result] demo_ready
      = (inr out, s') ∧
    ∃ (in0 in1 : Tensor) (M K : Z) (a b c : xrt_bo) (blob : instr_blob),
      ([demo_activation; demo_weights] : list Tensor) !! 0%nat = Some in0 ∧ ([demo_activation; demo_weights] : list Tensor) !! 1%nat = Some in1 ∧ shape in0 = [M; K] ∧
      a_bo_ (this demo_ready) = Some a ∧ b_bo_ (this demo_ready) = Some b ∧ c_bo_ (this demo_ready) = Some c ∧
      loaded (instr_reg_ (this s'))
        !! get_instr_key (txn_fname_prefix_ (this demo_ready)) (to_int M) (to_int K) = Some blob ∧
      device_trace (proc s') =
        device_trace (proc demo_ready) ++
        [ev_stage_write BoA (to_size_t (M * K * operand_dtype_size_ (this demo_ready)));
         ev_sync_to_device BoA;
         ev_stage_write BoB
           (to_size_t
              (running_product_with_skips (shape in1) [] * operand_dtype_size_ (this demo_ready)));
         ev_sync_to_device BoB] ++
        match loaded (instr_reg_ (this demo_ready))
                !! get_instr_key (txn_fname_prefix_ (this demo_ready)) (to_int M) (to_int K) with
        | Some _ => []
        | None =>
            [ev_instr_load
               (get_instr_key (txn_fname_prefix_ (this demo_ready)) (to_int M) (to_int K))]
        end ++
        [ev_kernel_run 2 (to_int (Z.of_nat (length (blob_bytes blob)) / sizeof_int))
           (address a + DDR_AIE_ADDR_OFFSET demo_platform)
           (address b + DDR_AIE_ADDR_OFFSET demo_platform)
           (address c + DDR_AIE_ADDR_OFFSET demo_platform);
         ev_sync_from_device BoC;
         ev_fetch_read BoC (to_size_t (M * K * operand_dtype_size_ (this demo_ready)))].
Proof.
  destruct (run_returned
              (execute demo_platform [demo_activation; demo_weights] [demo_result]
                 demo_ready)) as [out Hout]; [vm_compute; reflexivity |].
  exists out. eexists. split; [exact Hout |].
  exact (execute_pipeline_order demo_platform _ _ _ _ _ Hout).
Defined.

(** X9. The data a returning call of [execute] moves: buffer A holds the
    bytes of the first input tensor over the byte count of its shape
    (rows times columns times element size, a product in [size_t]),
    buffer B those of the second input tensor over the byte count of its
    shape; buffer C holds what the kernel computes from the instruction
    stream of the shape's key and the staged contents of A and B; the
    caller's first output tensor gets the first bytes of C, as many as
    were staged to A, laid over its memory, keeps its shape and dtype,
    and the other output tensors are returned as they were. *)
Theorem execute_data_flow (P : platform) (input output out : list Tensor)
    (s s' : state) :
  execute P input output s = (inr out, s') →
  ∃ (in0 in1 out0 : Tensor) (M K : Z) (a b c : xrt_bo) (blob : instr_blob),
    input !! 0%nat = Some in0 ∧ input !! 1%nat = Some in1 ∧
    output !! 0%nat = Some out0 ∧ shape in0 = [M; K] ∧
    a_bo_ (this s) = Some a ∧ b_bo_ (this s) = Some b ∧ c_bo_ (this s) = Some c ∧
    loaded (instr_reg_ (this s'))
      !! get_instr_key (txn_fname_prefix_ (this s)) (to_int M) (to_int K) = Some blob ∧
    let staged_a :=
      memcpy (bo_bytes a) (data in0)
        (to_size_t (M * K * operand_dtype_size_ (this s))) in
    let staged_b :=
      memcpy (bo_bytes b) (data in1)
        (to_size_t
           (running_product_with_skips (shape in1) [] * operand_dtype_size_ (this s))) in
    let computed := aie_kernel P blob staged_a staged_b (bo_bytes c) in
    a_bo_ (this s') = Some (set_bo_bytes staged_a a) ∧
    b_bo_ (this s') = Some (set_bo_bytes staged_b b) ∧
    c_bo_ (this s') = Some (set_bo_bytes computed c) ∧
    out = set_data
            (memcpy (data out0) computed
               (to_size_t (M * K * operand_dtype_size_ (this s))))
            out0 :: drop 1 output.
Proof.
  run_execute s.
  all: intros; simplify_eq.
  all: match goal with
       | E : extract_MK ?t = inr ?mk |- _ =>
           destruct (extract_MK_inr _ _ E) as (M & K & Hshape & ->)
       end.
  all: eexists _, _, _, M, K, _, _, _, _.
  all: split; [reflexivity |]; split; [reflexivity |]; split; [reflexivity |].
  all: split; [exact Hshape |].
  all: do 3 (split; [reflexivity |]).
  all: rewrite Hshape in *; rewrite ?running_product_pair in *.
  all: cbn [lookup list_lookup] in *; simplify_eq.
  all: split; [first [eassumption | apply lookup_insert_eq] |].
  all: cbv zeta.
  all: do 3 (split; [reflexivity |]).
  all: destruct output; [discriminate |].
  all: cbn [lookup list_lookup fst snd] in *; simplify_eq; reflexivity.
Qed.

Lemma execute_data_flow_witness :
  ∃ (out : list Tensor) (s' : state),
    execute demo_platform [demo_activation; demo_weights] [demo_result] demo_ready
      = (inr out, s') ∧
    ∃ (in0 in1 out0 : Tensor) (M K : Z) (a b c : xrt_bo) (blob : instr_blob),
      ([demo_activation; demo_weights] : list Tensor) !! 0%nat = Some in0 ∧ ([demo_activation; demo_weights] : list Tensor) !! 1%nat = Some in1 ∧
      ([demo_result] : list Tensor) !! 0%nat = Some out0 ∧ shape in0 = [M; K] ∧
      a_bo_ (this demo_ready) = Some a ∧ b_bo_ (this demo_ready) = Some b ∧ c_bo_ (this demo_ready) = Some c ∧
      loaded (instr_reg_ (this s'))
        !! get_instr_key (txn_fname_prefix_ (this demo_ready)) (to_int M) (to_int K) = Some blob ∧
      let staged_a :=
        memcpy (bo_bytes a) (data in0)
          (to_size_t (M * K * operand_dtype_size_ (this demo_ready))) in
      let staged_b :=
        memcpy (bo_bytes b) (data in1)
          (to_size_t
             (running_product_with_skips (shape in1) [] * operand_dtype_size_ (this demo_ready))) in
      let computed := aie_kernel demo_platform blob staged_a staged_b (bo_bytes c) in
      a_bo_ (this s') = Some (set_bo_bytes staged_a a) ∧
      b_bo_ (this s') = Some (set_bo_bytes staged_b b) ∧
      c_bo_ (this s') = Some (set_bo_bytes computed c) ∧
      out = set_data
              (memcpy (data out0) computed
                 (to_size_t (M * K * operand_dtype_size_ (this demo_ready))))
              out0 :: drop 1 ([demo_result] : list Tensor).
Proof.
  destruct (run_returned
              (execute demo_platform [demo_activation; demo_weights] [demo_result]
                 demo_ready)) as [out Hout]; [vm_compute; reflexivity |].
  exists out. eexists. split; [exact Hout |].
  exact (execute_data_flow demo_platform _ _ _ _ _ Hout).
Defined.

(** X10. Whatever its inputs and its outcome, a call of [execute]
    leaves the configuration of the operator as it is (the dtype table,
    the supported-shape table, the identifier, the debug flag, the dtype
    tag and size, the variant prefix and the device context) and does
    not touch the static members [rms_norm_count], [logger_flag_] and
    [instr_reg_flag_] nor the device contexts of the process; the device
    trace and the metrics sink only grow. *)
Theorem execute_frame (P : platform) (input output : list Tensor)
    (s s' : state) (r : result (list Tensor)) :
  execute P input output s = (r, s') →
  (txnbin_operand_header (this s') = txnbin_operand_header (this s) ∧
   default_shapes_ (this s') = default_shapes_ (this s) ∧
   rms_norm_id_ (this s') = rms_norm_id_ (this s) ∧
   debug_ (this s') = debug_ (this s) ∧
   operand_dtype_ (this s') = operand_dtype_ (this s) ∧
   operand_dtype_size_ (this s') = operand_dtype_size_ (this s) ∧
   txn_fname_prefix_ (this s') = txn_fname_prefix_ (this s) ∧
   xrt_ctx_ (this s') = xrt_ctx_ (this s)) ∧
  (rms_norm_count (proc s') = rms_norm_count (proc s) ∧
   logger_flag_ (proc s') = logger_flag_ (proc s) ∧
   instr_reg_flag_ (proc s') = instr_reg_flag_ (proc s) ∧
   xrt_contexts (proc s') = xrt_contexts (proc s)) ∧
  (∃ events, device_trace (proc s') = device_trace (proc s) ++ events) ∧
  (∃ lines, log_sink (proc s') = log_sink (proc s) ++ lines).
Proof.
  run_execute s.
  all: intros; simplify_eq.
  all: split; [repeat split |]; (split; [repeat split |]).
  all: split; [rewrite <- ?app_assoc; first [by eexists | by exists []; rewrite app_nil_r]
              | first [by eexists | by exists []; rewrite app_nil_r] ].
Qed.

Lemma execute_frame_witness :
  debug_ (this demo_after_run) = debug_ (this demo_ready) ∧
  rms_norm_count (proc demo_after_run) = rms_norm_count (proc demo_ready).
Proof.
  destruct (execute_frame demo_platform [demo_activation; demo_weights] [demo_result]
              demo_ready _ _ (surjective_pairing _))
    as ((_ & _ & _ & Hdebug & _) & (Hcount & _) & _).
  split; [exact Hdebug | exact Hcount].
Defined.

(** X11. A call of [execute] that fails writes nothing to the metrics
    sink. A call that returns appends exactly one timing line, which
    carries the identifier of the operator and the run count and the
    seven durations that the call leaves in the timing record. *)
Theorem execute_log (P : platform) (input output : list Tensor)
    (s s' : state) (r : result (list Tensor)) :
  execute P input output s = (r, s') →
  match r with
  | inl _ => log_sink (proc s') = log_sink (proc s)
  | inr _ =>
      ∃ exec_time : Z,
        log_sink (proc s') =
          log_sink (proc s) ++
          [log_timing (rms_norm_id_ (this s)) exec_time
             (num_run_aie_ (this s')) (run_aie_time_ (this s'))
             (a_copy_time_ (this s')) (a_sync_time_ (this s'))
             (b_copy_time_ (this s')) (b_sync_time_ (this s'))
             (c_copy_time_ (this s')) (c_sync_time_ (this s'))]
  end.
Proof.
  run_execute s.
  all: intros; simplify_eq.
  all: first [reflexivity | eexists; reflexivity].
Qed.

Lemma execute_log_witness :
  ∃ exec_time : Z,
    log_sink (proc demo_after_run) =
      log_sink (proc demo_ready) ++
      [log_timing (rms_norm_id_ (this demo_ready)) exec_time
         (num_run_aie_ (this demo_after_run)) (run_aie_time_ (this demo_after_run))
         (a_copy_time_ (this demo_after_run)) (a_sync_time_ (this demo_after_run))
         (b_copy_time_ (this demo_after_run)) (b_sync_time_ (this demo_after_run))
         (c_copy_time_ (this demo_after_run)) (c_sync_time_ (this demo_after_run))].
Proof.
  destruct (run_returned
              (execute demo_platform [demo_activation; demo_weights] [demo_result]
                 demo_ready)) as [out Hout]; [vm_compute; reflexivity |].
  exact (execute_log demo_platform _ _ demo_ready _ (inr out) Hout).
Defined.

(** X12. Whatever its inputs and its outcome, a call of [execute]
    allocates none of the staging buffers and lets none go, and each
    keeps its size and its device address. Of buffer A the call changes
    at most the bytes in the range it stages the first input tensor to,
    of buffer B at most those it stages the second input tensor to:
    every byte outside the range is as before the call. *)
Theorem execute_buffer_frame (P : platform) (input output : list Tensor)
    (s s' : state) (r : result (list Tensor)) :
  execute P input output s = (r, s') →
  (∀ role : bo_role,
     match bo_of role (this s), bo_of role (this s') with
     | Some b, Some b' => bo_size b' = bo_size b ∧ address b' = address b
     | None, None => True
     | _, _ => False
     end) ∧
  (∀ (a a' : xrt_bo) (in0 : Tensor) (i : Z),
     a_bo_ (this s) = Some a → a_bo_ (this s') = Some a' → input !! 0%nat = Some in0 →
     ¬ (0 ≤ i < to_size_t (running_product_with_skips (shape in0) []
                           * operand_dtype_size_ (this s))) →
     bo_bytes a' i = bo_bytes a i) ∧
  (∀ (b b' : xrt_bo) (in1 : Tensor) (i : Z),
     b_bo_ (this s) = Some b → b_bo_ (this s') = Some b' → input !! 1%nat = Some in1 →
     ¬ (0 ≤ i < to_size_t (running_product_with_skips (shape in1) []
                           * operand_dtype_size_ (this s))) →
     bo_bytes b' i = bo_bytes b i).
Proof.
  run_execute s.
  all: intros; simplify_eq.
  all: split; [intros [| |]; state_simpl; repeat case_match; simplify_eq; done |].
  all: split; intros ? ? ? ? ? ? ? Hout; simplify_eq;
    first [reflexivity | exact (memcpy_outside _ _ _ _ Hout)].
Qed.

Lemma execute_buffer_frame_witness :
  match bo_of BoA (this demo_ready), bo_of BoA (this demo_after_run) with
  | Some b, Some b' => bo_size b' = bo_size b ∧ address b' = address b
  | None, None => True
  | _, _ => False
  end.
Proof.
  destruct (execute_buffer_frame demo_platform [demo_activation; demo_weights]
              [demo_result] demo_ready _ _ (surjective_pairing _)) as [Hroles _].
  exact (Hroles BoA).
Defined.

Lemma run_outcome {A : Type} (c : result A * state) (r : result A)
    (Q : state → Prop) :
  c.1 = r ∧ Q c.2 → ∃ s' : state, c = (r, s') ∧ Q s'.
Proof. destruct c as [r' s']; simpl. intros [-> HQ]. by exists s'. Qed.

(** X13. [execute] reads [output.at(0)] only after the kernel has run:
    where a call returns for some output vector, the same call with an
    empty output vector raises [std::out_of_range], but only after it
    has staged both inputs, buffers A and B holding the bytes of the two
    input tensors, run the kernel once, buffer C holding what the kernel
    computed, and synchronised buffer C back: the device trace has
    every operation of the returning call but the copy out of C. No
    timing line is written. *)
Theorem execute_output_checked_last (P : platform) (input output : list Tensor)
    (s : state) :
  returned (execute P input output s).1 = true →
  ∃ (in0 in1 : Tensor) (M K : Z) (a b c : xrt_bo) (blob : instr_blob) (s' : state),
    execute P input [] s = (inl out_of_range, s') ∧
    input !! 0%nat = Some in0 ∧ input !! 1%nat = Some in1 ∧ shape in0 = [M; K] ∧
    a_bo_ (this s) = Some a ∧ b_bo_ (this s) = Some b ∧ c_bo_ (this s) = Some c ∧
    loaded (instr_reg_ (this s'))
      !! get_instr_key (txn_fname_prefix_ (this s)) (to_int M) (to_int K) = Some blob ∧
    let staged_a :=
      memcpy (bo_bytes a) (data in0)
        (to_size_t (M * K * operand_dtype_size_ (this s))) in
    let staged_b :=
      memcpy (bo_bytes b) (data in1)
        (to_size_t
           (running_product_with_skips (shape in1) [] * operand_dtype_size_ (this s))) in
    a_bo_ (this s') = Some (set_bo_bytes staged_a a) ∧
    b_bo_ (this s') = Some (set_bo_bytes staged_b b) ∧
    c_bo_ (this s') =
      Some (set_bo_bytes (aie_kernel P blob staged_a staged_b (bo_bytes c)) c) ∧
    num_run_aie_ (this s') = 1 ∧
    device_trace (proc s') =
      device_trace (proc s) ++
      [ev_stage_write BoA (to_size_t (M * K * operand_dtype_size_ (this s)));
       ev_sync_to_device BoA;
       ev_stage_write BoB
         (to_size_t
            (running_product_with_skips (shape in1) [] * operand_dtype_size_ (this s)));
       ev_sync_to_device BoB] ++
      match loaded (instr_reg_ (this s))
              !! get_instr_key (txn_fname_prefix_ (this s)) (to_int M) (to_int K) with
      | Some _ => []
      | None =>
          [ev_instr_load
             (get_instr_key (txn_fname_prefix_ (this s)) (to_int M) (to_int K))]
      end ++
      [ev_kernel_run 2 (to_int (Z.of_nat (length (blob_bytes blob)) / sizeof_int))
         (address a + DDR_AIE_ADDR_OFFSET P)
         (address b + DDR_AIE_ADDR_OFFSET P)
         (address c + DDR_AIE_ADDR_OFFSET P);
       ev_sync_from_device BoC] ∧
    log_sink (proc s') = log_sink (proc s).
Proof.
  rewrite execute_returns_iff.
  intros (in0 & in1 & out0 & table & M & K & a & b & c & ctx & Hin0 & Hin1 & Hout0
          & Htable & Hshape & Hlisted & Ha & Hna & Hb & Hnb & Hc & Hnc & Hctx
          & [persistent Hkey] & Hblob).
  apply shape_listed_elem_of in Hlisted.
  apply Z.leb_le in Hna, Hnb, Hnc.
  pose proof (extract_MK_rank2 _ _ _ Hshape) as Hmk.
  rewrite <- (running_product_pair M K) in Hna, Hnc.
  assert (Hm : shape in0 !! 0%nat = Some M) by (rewrite Hshape; reflexivity).
  assert (Hk : shape in0 !! 1%nat = Some K) by (rewrite Hshape; reflexivity).
  split_state s.
  cbn [this proc default_shapes_ txn_fname_prefix_ a_bo_ b_bo_ c_bo_ xrt_ctx_
       operand_dtype_size_ instr_reg_] in *.
  destruct o_reg as [reg_ctx reg_keys reg_params reg_loaded].
  cbn [instr_keys loaded] in *.
  subst. destruct a as [a_size a_addr a_bytes], b as [b_size b_addr b_bytes],
    c as [c_size c_addr c_bytes].
  cbn [bo_size] in *.
  rewrite <- Hshape in Hna, Hnc.
  destruct (reg_loaded !! get_instr_key o_prefix (to_int M) (to_int K))
    as [blob|] eqn:Hloaded;
    [| destruct Hblob as [[blob Hblob]|[bytes Hbytes]]; [discriminate Hblob |]].
  1: exists in0, in1, M, K,
       {| bo_size := a_size; address := a_addr; bo_bytes := a_bytes |},
       {| bo_size := b_size; address := b_addr; bo_bytes := b_bytes |},
       {| bo_size := c_size; address := c_addr; bo_bytes := c_bytes |}, blob.
  2: exists in0, in1, M, K,
       {| bo_size := a_size; address := a_addr; bo_bytes := a_bytes |},
       {| bo_size := b_size; address := b_addr; bo_bytes := b_bytes |},
       {| bo_size := c_size; address := c_addr; bo_bytes := c_bytes |},
       {| blob_bytes := bytes |}.
  all: apply run_outcome.
  all: open_execute; repeat run1.
  all: try match goal with H : [] !! _ = Some _ |- _ => inversion H end.
  all: rewrite ?Hshape, ?running_product_pair.
  all: split; [reflexivity |].
  all: do 3 (split; [first [assumption | reflexivity] |]).
  all: do 3 (split; [reflexivity |]).
  all: split; [first [reflexivity | eassumption | apply lookup_insert_eq] |].
  all: do 4 (split; [reflexivity |]).
  all: split; [rewrite <- ?app_assoc; reflexivity | reflexivity].
Qed.

Lemma execute_output_checked_last_witness :
  ∃ s' : state,
    execute demo_platform [demo_activation; demo_weights] [] demo_ready
      = (inl out_of_range, s') ∧
    num_run_aie_ (this s') = 1 ∧
    log_sink (proc s') = log_sink (proc demo_ready).
Proof.
  destruct (execute_output_checked_last demo_platform [demo_activation; demo_weights]
              [demo_result] demo_ready)
    as (in0 & in1 & M & K & a & b & c & blob & s' & Hrun & Hrest).
  - vm_compute. reflexivity.
  - cbv zeta in Hrest.
    destruct Hrest as (_ & _ & _ & _ & _ & _ & _ & _ & _ & _ & Hruns & _ & Hlog).
    exists s'. split; [exact Hrun |]. split; [exact Hruns | exact Hlog].
Defined.

(** X14. [debug] assigns [debug_] and touches nothing else, and
    nothing in [execute] depends on the flag: [execute] on the operator
    with the flag set to any value gives the outcome it gives without,
    and leaves the state it leaves without, but for the flag. *)
Theorem debug_no_effect_on_execute (P : platform) (enable : bool)
    (input output : list Tensor) (s : state) :
  debug enable s = (inr tt, {| this := set_debug_ enable (this s); proc := proc s |}) ∧
  execute P input output {| this := set_debug_ enable (this s); proc := proc s |} =
    let (r, s') := execute P input output s in
    (r, {| this := set_debug_ enable (this s'); proc := proc s' |}).
Proof.
  split; [reflexivity |].
  run_execute s.
  all: reflexivity.
Qed.

(** ** Buffer requirements: missing operands, agreement with [execute] *)

(** X15. [get_buffer_reqs] never changes the state. It raises
    [std::out_of_range] exactly when there is no first input tensor, or
    the first input tensor has rank 2 and there is no second input
    tensor, or the second one has no extent, or there is no output
    tensor. A first input tensor of another rank is reported by the
    rank error before the other operands are looked at, whatever they
    are. *)
Theorem get_buffer_reqs_out_of_range (input output : list Tensor) (s : state) :
  (get_buffer_reqs input output s).2 = s ∧
  ((get_buffer_reqs input output s).1 = inl out_of_range ↔
   input !! 0%nat = None ∨
   ∃ in0 : Tensor,
     input !! 0%nat = Some in0 ∧ length (shape in0) = 2%nat ∧
     (input !! 1%nat = None ∨
      (∃ in1 : Tensor, input !! 1%nat = Some in1 ∧ shape in1 = []) ∨
      output !! 0%nat = None)) ∧
  (∀ in0 : Tensor,
     input !! 0%nat = Some in0 → length (shape in0) ≠ 2%nat →
     (get_buffer_reqs input output s).1 = inl (runtime_error rank_message)).
Proof.
  assert (Hrank : ∀ in0 : Tensor,
            input !! 0%nat = Some in0 → length (shape in0) ≠ 2%nat →
            (get_buffer_reqs input output s).1 = inl (runtime_error rank_message)).
  { intros in0 Hin0 Hlen. unfold get_buffer_reqs, vector_at. unfold_comp.
    rewrite Hin0, (extract_MK_other_rank _ Hlen). reflexivity. }
  apply and_assoc. split; [| exact Hrank]. clear Hrank.
  unfold get_buffer_reqs, vector_at. unfold_comp.
  destruct (input !! 0%nat) as [in0|] eqn:Hin0; cbn [fst snd].
  2: { split; [reflexivity |]. split; [by left | reflexivity]. }
  destruct (extract_MK in0) as [e|so] eqn:E0.
  { pose proof (extract_MK_inl _ _ E0) as ->. split; [reflexivity |].
    split; [discriminate |].
    intros [H|(in0' & [= <-] & Hlen & _)]; [discriminate H |].
    unfold extract_MK in E0. destruct (decide _) as [Hne|_]; [by destruct Hne |].
    destruct (shape in0) as [|? [|? [|? ?]]]; discriminate. }
  destruct (extract_MK_inr _ _ E0) as (M0 & K0 & Hs0 & ->).
  assert (Hlen0 : length (shape in0) = 2%nat) by (rewrite Hs0; reflexivity).
  destruct (input !! 1%nat) as [in1|] eqn:Hin1; cbn [fst snd].
  2: { split; [reflexivity |]. split; [| reflexivity].
       intros _. right. exists in0. auto. }
  destruct (shape in1) as [|wlen wrest] eqn:Hs1; cbn [lookup list_lookup fst snd].
  { split; [reflexivity |]. split; [| reflexivity].
    intros _. right. exists in0. split; [reflexivity |]. split; [assumption |].
    right. left. exists in1. auto. }
  destruct (output !! 0%nat) as [out0|] eqn:Hout0; cbn [fst snd].
  2: { split; [reflexivity |]. split; [| reflexivity].
       intros _. right. exists in0. auto. }
  assert (Hno : ¬ (Some in1 = None ∨
                   (∃ in1' : Tensor, Some in1 = Some in1' ∧ shape in1' = []) ∨
                   Some out0 = None)).
  { intros [H|[(in1' & [= <-] & H)|H]]; [discriminate H | congruence | discriminate H]. }
  destruct (extract_MK out0) as [e|sr] eqn:E1.
  { pose proof (extract_MK_inl _ _ E1) as ->. split; [reflexivity |].
    split; [discriminate |].
    intros [H|(in0' & _ & _ & H)]; [discriminate H | destruct (Hno H)]. }
  destruct (decide (_ ≠ sr)); cbn [fst snd].
  { split; [reflexivity |]. split; [discriminate |].
    intros [H|(in0' & _ & _ & H)]; [discriminate H | destruct (Hno H)]. }
  destruct (decide (_ ≠ wlen)); cbn [fst snd].
  { split; [reflexivity |]. split; [discriminate |].
    intros [H|(in0' & _ & _ & H)]; [discriminate H | destruct (Hno H)]. }
  split; [reflexivity |]. split; [discriminate |].
  intros [H|(in0' & _ & _ & H)]; [discriminate H | destruct (Hno H)].
Qed.

Lemma running_product_single (n : Z) :
  running_product_with_skips [n] [] = n.
Proof.
  unfold running_product_with_skips, product_from.
  rewrite bool_decide_eq_false_2 by apply not_elem_of_nil. lia.
Qed.

(** X16. The sizes [get_buffer_reqs] reports agree with the bytes
    [execute] moves: for an operator whose element size is
    [sizeof(LhsT)], where both calls return on the same tensors and the
    extents of the primary input and their product fit [int], the size
    of the first input entry and the size of the output entry are the
    byte count [execute] stages to A and copies out of C, and for a
    weight tensor of rank 1 the size of the second input entry is the
    byte count staged to B. *)
Theorem buffer_reqs_match_execute (P : platform) (input output out : list Tensor)
    (reqs : list OpArgMap) (s s0 s' : state) :
  get_buffer_reqs input output s = (inr reqs, s0) →
  execute P input output s = (inr out, s') →
  operand_dtype_size_ (this s) = sizeof_LhsT →
  (∀ (in0 : Tensor) (M K : Z),
     input !! 0%nat = Some in0 → shape in0 = [M; K] →
     0 ≤ M < 2 ^ 31 → 0 ≤ K < 2 ^ 31 → M * K < 2 ^ 31 →
     size <$> reqs !! 0%nat = Some (operand_size_in_bytes_ (this s')) ∧
     size <$> reqs !! 2%nat = Some (operand_size_in_bytes_ (this s'))) ∧
  (∀ in1 : Tensor,
     input !! 1%nat = Some in1 → length (shape in1) = 1%nat →
     size <$> reqs !! 1%nat = Some (wts_size_in_bytes_ (this s'))).
Proof.
  intros Hreqs. run_execute s.
  all: intros; simplify_eq.
  all: match goal with
       | E : extract_MK ?t = inr ?mk |- _ =>
           destruct (extract_MK_inr _ _ E) as (M0 & K0 & Hshape & ->)
       end.
  all: unfold get_buffer_reqs, vector_at in Hreqs; unfold_comp.
  all: repeat match goal with
         | E : ?x = _, H : context [match ?x with _ => _ end] |- _ => rewrite E in H
         end.
  all: destruct (shape _ !! 0%nat) as [wlen|] eqn:Hwlen in Hreqs; [| discriminate Hreqs].
  all: repeat match goal with
         | E : ?x = _, H : context [match ?x with _ => _ end] |- _ => rewrite E in H
         end.
  all: destruct (extract_MK _) as [?|shape_result] in Hreqs; [discriminate Hreqs |].
  all: destruct (decide (_ ≠ shape_result)) in Hreqs; [discriminate Hreqs |].
  all: destruct (decide (_ ≠ wlen)) in Hreqs; [discriminate Hreqs |].
  all: injection Hreqs as <- _.
  all: cbn [this operand_dtype_size_] in *; subst.
  all: unfold tuple_to_vector, sizeof_OutT, sizeof_LhsT, sizeof_WtsT.
  all: cbn [fst snd fmap option_fmap option_map lookup list_lookup size].
  all: split.
  all: try (intros in0 M K Hin0 Hs HM HK HMK; injection Hin0 as <-;
            rewrite Hs in Hshape; injection Hshape as <- <-;
            rewrite Hs, !running_product_pair;
            assert (0 ≤ M * K) by (apply Z.mul_nonneg_nonneg; lia);
            rewrite (to_int_fits M), (to_int_fits K), (to_int_fits (M * K)) by lia;
            split; reflexivity).
  all: intros in1 Hin1 Hlen; simplify_eq.
  all: destruct (shape in1) as [|w [|? ?]]; try discriminate Hlen.
  all: cbn [lookup list_lookup] in Hwlen; simplify_eq.
  all: rewrite running_product_single; reflexivity.
Qed.

Lemma buffer_reqs_match_execute_witness :
  ∃ reqs : list OpArgMap,
    (get_buffer_reqs [demo_activation; demo_weights] [demo_result] demo_ready).1
      = inr reqs ∧
    size <$> reqs !! 0%nat = Some (operand_size_in_bytes_ (this demo_after_run)).
Proof.
  destruct (run_returned
              (get_buffer_reqs [demo_activation; demo_weights] [demo_result] demo_ready))
    as [reqs Hreqs]; [vm_compute; reflexivity |].
  destruct (run_returned
              (execute demo_platform [demo_activation; demo_weights] [demo_result]
                 demo_ready)) as [out Hout]; [vm_compute; reflexivity |].
  exists reqs. split; [exact (f_equal fst Hreqs) |].
  destruct (buffer_reqs_match_execute demo_platform _ _ _ _ _ _ _ Hreqs Hout)
    as [Hoperand _]; [vm_compute; reflexivity |].
  destruct (Hoperand demo_activation 128 4096 eq_refl eq_refl) as [Hsize _];
    [lia | lia | lia |].
  exact Hsize.
Defined.
